(** * macOS code signer of the buildbot: classification of build output
    files and the two signing passes.

    Shallow embedding of [build_files/buildbot/codesign/macos_code_signer.py].
    Paths are [pathlib] pure POSIX paths, represented by their [parts];
    the signer's methods run in a state monad with exceptions whose state
    holds the external world and the chronological list of what the code
    did to it (log records and command invocations). *)

From Stdlib Require Import ZArith Ascii String.
From stdpp Require Import base decidable option list gmap strings.

Local Open Scope string_scope.
Local Open Scope list_scope.

(** ** Python strings *)

Module Str.

Definition len (s : string) : Z := Z.of_nat (String.length s).

(** [s.startswith(prefix)] *)
Definition startswith (s pre : string) : bool := String.prefix pre s.

(** [s.endswith(suffix)] *)
Definition endswith (s suf : string) : bool :=
  let n := String.length s in
  let m := String.length suf in
  (m <=? n)%nat && String.eqb (String.substring (n - m) m s) suf.

(** [s.rfind(c)] for a one-character needle: the highest index holding
    [c], or -1. [i] is the index of the first character of [s]. *)
Fixpoint rfind_from (c : ascii) (s : string) (i : Z) : Z :=
  match s with
  | EmptyString => (-1)%Z
  | String a s' =>
      let r := rfind_from c s' (i + 1)%Z in
      if (0 <=? r)%Z then r
      else if Ascii.eqb a c then i else (-1)%Z
  end.

Definition rfind (s : string) (c : ascii) : Z := rfind_from c s 0%Z.

(** [s[i:]] for [0 <= i] *)
Definition slice_from (s : string) (i : Z) : string :=
  String.substring (Z.to_nat i) (String.length s - Z.to_nat i) s.

(** [s.lstrip(c)] for a one-character set *)
Fixpoint lstrip (c : ascii) (s : string) : string :=
  match s with
  | String a s' => if Ascii.eqb a c then lstrip c s' else s
  | EmptyString => EmptyString
  end.

(** [s.split(c)]: the fields between the occurrences of [c]; never an
    empty list. *)
Fixpoint split (c : ascii) (s : string) : list string :=
  match s with
  | EmptyString => [EmptyString]
  | String a s' =>
      if Ascii.eqb a c then EmptyString :: split c s'
      else match split c s' with
           | [] => [String a EmptyString]
           | field :: fields => String a field :: fields
           end
  end.

(** [c in s] *)
Fixpoint contains (c : ascii) (s : string) : bool :=
  match s with
  | EmptyString => false
  | String a s' => Ascii.eqb a c || contains c s'
  end.

End Str.

(** ** Exceptions *)

Inductive Exception : Type :=
| AssertionError
| IndexError
| ValueError.

Inductive Result (A : Type) : Type :=
| Ok (a : A)
| Raise (e : Exception).

Arguments Ok {A} a.
Arguments Raise {A} e.

#[global] Instance Result_ret : MRet Result := @Ok.
#[global] Instance Result_bind : MBind Result := fun A B f r =>
  match r with
  | Ok a => f a
  | Raise e => Raise e
  end.

(** ** pathlib.PurePosixPath, by its [parts] *)

(** A path is the tuple [parts] of the Python object: for an absolute
    path the first part is the root, ["/"] or ["//"]; every other part
    is one name. *)
Abbreviation Path := (list string).

Module PurePath.

Definition sep : ascii := "/"%char.

(** [_PosixFlavour.splitroot]: the root and the rest of one string. *)
Definition splitroot (part : string) : string * string :=
  match part with
  | String a _ =>
      if Ascii.eqb a sep then
        let stripped := Str.lstrip sep part in
        if (Str.len part - Str.len stripped =? 2)%Z
        then ("//", stripped) else ("/", stripped)
      else ("", part)
  | EmptyString => ("", part)
  end.

Definition keep_name (x : string) : bool :=
  negb (String.eqb x "") && negb (String.eqb x ".").

(** [_Flavour.parse_parts] applied to a single string. *)
Definition parse_parts (part : string) : string * Path :=
  if String.eqb part "" then ("", [])
  else
    let '(root, rel) := splitroot part in
    let names := List.filter keep_name (Str.split sep rel) in
    if String.eqb root "" then (root, names) else (root, root :: names).

Definition is_root (s : string) : bool :=
  String.eqb s "/" || String.eqb s "//".

(** [PurePath.root] *)
Definition root (p : Path) : string :=
  match p with
  | s :: _ => if is_root s then s else ""
  | [] => ""
  end.

Definition is_absolute (p : Path) : bool := negb (String.eqb (root p) "").

(** [self / key] for a string [key] ([_make_child] with
    [join_parsed_parts], which on POSIX lets a rooted right operand
    replace the left one). *)
Definition truediv (p : Path) (key : string) : Path :=
  let '(root2, parts2) := parse_parts key in
  if negb (String.eqb root2 "") then parts2 else p ++ parts2.

(** [PurePath.name]: the last part, unless only the root is there. *)
Definition name (p : Path) : string :=
  if (length p =? (if is_absolute p then 1 else 0))%nat then ""
  else List.last p "".

(** [PurePath.suffix] *)
Definition suffix (p : Path) : string :=
  let name := name p in
  let i := Str.rfind name "."%char in
  if (0 <? i)%Z && (i <? Str.len name - 1)%Z
  then Str.slice_from name i
  else "".

(** What is left of [p] once the parts [other] are taken from its
    front, when they are its front. *)
Fixpoint strip_prefix (other p : Path) : option Path :=
  match other, p with
  | [], _ => Some p
  | o :: other', x :: p' =>
      if String.eqb o x then strip_prefix other' p' else None
  | _ :: _, [] => None
  end.

(** [PurePath.relative_to(other)]: the parts after [other], or
    [ValueError] when the path does not start with [other] (an absolute
    path is not relative to the empty path). *)
Definition relative_to (p other : Path) : Result Path :=
  match other with
  | [] => if is_absolute p then Raise ValueError else Ok p
  | _ :: _ =>
      match strip_prefix other p with
      | Some rest => Ok rest
      | None => Raise ValueError
      end
  end.

(** The invariant of every path object: a root only in front, and
    each name non-empty, free of separators and different from ["."]. *)
Definition is_name (s : string) : bool :=
  keep_name s && negb (Str.contains sep s).

Definition wf (p : Path) : bool :=
  match p with
  | [] => true
  | s :: names => (is_root s || is_name s) && forallb is_name names
  end.

End PurePath.

(** ** codesign.absolute_and_relative_filename *)

Record AbsoluteAndRelativeFileName : Type := FileName {
  base_dir : Path;
  absolute_filepath : Path;
  relative_filepath : Path
}.

(** Modelled from the spec: the class [AbsoluteAndRelativeFileName]
    (codesign/absolute_and_relative_filename.py) is not among the
    sources. The spec's FileRef is the pair of a base directory and a
    path relative to it, whose absolute path is the base directory
    joined with the relative path; the signer constructs one from a base
    directory and a path below it, so the constructor keeps that path as
    the absolute one and its remainder after the base directory as the
    relative one. *)
Definition AbsoluteAndRelativeFileName_init
    (base_dir filepath : Path) : Result AbsoluteAndRelativeFileName :=
  relative_filepath ← PurePath.relative_to filepath base_dir;
  mret (FileName base_dir filepath relative_filepath).

(** ** Module-level constants *)

Definition EXTENSIONS_TO_BE_SIGNED : gset string :=
  {[ ".dylib"; ".so"; ".dmg" ]}.

Definition NAME_PREFIXES_TO_BE_SIGNED : gset string := {[ "python" ]}.

(** ** Classification *)

Definition is_file_from_bundle (file : AbsoluteAndRelativeFileName) : bool :=
  let parts := relative_filepath file in
  match parts with
  | [] => false
  | parts_0 :: _ =>
      if negb (Str.endswith parts_0 ".app") then false
      else true
  end.

Definition get_bundle_from_file
    (file : AbsoluteAndRelativeFileName) : Result AbsoluteAndRelativeFileName :=
  if negb (is_file_from_bundle file) then Raise AssertionError
  else
    let parts := relative_filepath file in
    match parts with
    | [] => Raise IndexError
    | bundle_name :: _ =>
        let base_dir := base_dir file in
        let bundle_filepath := PurePath.truediv base_dir bundle_name in
        AbsoluteAndRelativeFileName_init base_dir bundle_filepath
    end.

(** [parts[i:j]] for [0 <= i <= j] *)
Definition slice {A : Type} (i j : nat) (l : list A) : list A :=
  take (j - i) (drop i l).

Definition is_bundle_executable_file
    (file : AbsoluteAndRelativeFileName) : bool :=
  if negb (is_file_from_bundle file) then false
  else
    let parts := relative_filepath file in
    let num_parts := length parts in
    if (num_parts <? 3)%nat then false
    else if negb (bool_decide (slice 1 3 parts = ["Contents"; "MacOS"]))
         then false
         else true.

Definition check_file_is_to_be_signed
    (file : AbsoluteAndRelativeFileName) : bool :=
  if is_bundle_executable_file file then true
  else
    let base_name := PurePath.name (relative_filepath file) in
    if existsb (fun prefix => Str.startswith base_name prefix)
               (elements NAME_PREFIXES_TO_BE_SIGNED)
    then true
    else bool_decide (PurePath.suffix (relative_filepath file)
                        ∈ EXTENSIONS_TO_BE_SIGNED).

(** ** What the signer does to the outside *)

(** Modelled from the spec: the enumeration [util.Platform]
    (codesign/util.py) is not among the sources; the signer names only
    its member [MACOS], the spec leaving the Windows and Linux signing
    schemes out of scope. *)
Inductive Platform : Type := LINUX | MACOS | WINDOWS.

(** One element of a command list: a string or a path object. *)
Inductive Arg : Type :=
| AStr (s : string)
| APath (p : Path).

Abbreviation Command := (list Arg).

(** One argument of a log record, kept unformatted as [logging] does. *)
Inductive LogArg : Type :=
| LInt (n : Z)
| LPath (p : Path).

Inductive Event : Type :=
| Info (msg : string) (args : list LogArg)
| Invocation (command : Command) (platform : Platform).

(** The configuration object read by the signer. The entitlements file
    is held as the text that formatting it in an f-string yields. *)
Record Config : Type := {
  MACOS_ENTITLEMENTS_FILE : string;
  MACOS_CODESIGN_IDENTITY : string
}.

#[global] Instance Arg_eq_dec : EqDecision Arg.
Proof. solve_decision. Defined.

(** The one-character string holding a double quote (code point 34). *)
Definition DQUOTE : string := String (ascii_of_nat 34) EmptyString.

(** [enumerate(l)], counting from [i] *)
Fixpoint enumerate_from {A : Type} (i : Z) (l : list A) : list (Z * A) :=
  match l with
  | [] => []
  | x :: l' => (i, x) :: enumerate_from (i + 1)%Z l'
  end.

Definition enumerate {A : Type} (l : list A) : list (Z * A) :=
  enumerate_from 0%Z l.

Definition len {A : Type} (l : list A) : Z := Z.of_nat (length l).

Section MacOSCodeSigner.

(** The state of everything outside the process, and what running one
    command does to it: the new state and the exit status. *)
Variable World : Type.
Variable exec : Command → World → World * Z.

(** [self.config] *)
Variable config : Config.

Record State : Type := {
  world : World;
  events : list Event
}.

(** Computations that change the state and return or raise; what was
    done before an exception stays done. *)
Definition M (A : Type) : Type := State → Result A * State.

#[local] Instance M_ret : MRet M := fun A a st => (Ok a, st).

#[local] Instance M_bind : MBind M := fun A B f m st =>
  match m st with
  | (Ok a, st') => f a st'
  | (Raise e, st') => (Raise e, st')
  end.

Definition lift {A : Type} (r : Result A) : M A := fun st => (r, st).

(** [for x in xs: body], the body changing the loop's variables [s];
    [continue] is the body's return. *)
Fixpoint for_each {A S : Type} (xs : list A) (body : A → S → M S)
    (s : S) : M S :=
  match xs with
  | [] => mret s
  | x :: xs' => s' ← body x s; for_each xs' body s'
  end.

(** [logger_server.info(msg, *args)] *)
Definition info (msg : string) (args : list LogArg) : M unit :=
  fun st => (Ok tt, {| world := world st;
                       events := events st ++ [Info msg args] |}).

(** Modelled from the spec: [BaseCodeSigner.run_command_or_mock]
    (codesign/base_code_signer.py) is not among the sources. It runs
    the external command, an opaque process with an exit status, or in
    the mock execution mode records the invocation; the orchestration
    does not look at the exit status. The invocation is recorded as an
    event, the world moves by [exec], and nothing is returned. *)
Definition run_command_or_mock (command : Command)
    (platform : Platform) : M unit :=
  fun st => (Ok tt, {| world := (exec command (world st)).1;
                       events := events st ++ [Invocation command platform] |}).

Definition codesign_remove_signature
    (file : AbsoluteAndRelativeFileName) : M unit :=
  info "Removing codesign signature from  %s..."
       [LPath (relative_filepath file)];;
  let command := [AStr "codesign"; AStr "--remove-signature";
                  APath (absolute_filepath file)] in
  run_command_or_mock command MACOS.

Definition codesign_file (file : AbsoluteAndRelativeFileName) : M unit :=
  info "Codesigning  %s..." [LPath (relative_filepath file)];;
  let entitlements_file := MACOS_ENTITLEMENTS_FILE config in
  let command := [AStr "codesign";
                  AStr "--timestamp";
                  AStr "--options"; AStr "runtime";
                  AStr ("--entitlements=" ++ DQUOTE ++ entitlements_file
                          ++ DQUOTE);
                  AStr "--sign"; AStr (MACOS_CODESIGN_IDENTITY config);
                  APath (absolute_filepath file)] in
  run_command_or_mock command MACOS.

(** The body of the loop of [codesign_all_files] over
    [enumerate(files)], on the loop's variables [have_ignored_files]
    and [signed_files]. *)
Definition codesign_all_files_body (num_files : Z)
    (item : Z * AbsoluteAndRelativeFileName)
    (vars : bool * list AbsoluteAndRelativeFileName)
    : M (bool * list AbsoluteAndRelativeFileName) :=
  let '(file_index, file) := item in
  let '(have_ignored_files, signed_files) := vars in
  if negb (check_file_is_to_be_signed file) then
    info "Ignoring file [%d/%d] %s"
         [LInt (file_index + 1); LInt num_files;
          LPath (relative_filepath file)];;
    mret (true, signed_files)
  else
    info "Running codesigning routines for file [%d/%d] %s..."
         [LInt (file_index + 1); LInt num_files;
          LPath (relative_filepath file)];;
    codesign_remove_signature file;;
    codesign_file file;;
    mret (have_ignored_files, signed_files ++ [file]).

(** The body of the loop over [enumerate(signed_files)]. *)
Definition codesign_all_files_report (num_signed_files : Z)
    (item : Z * AbsoluteAndRelativeFileName) (_ : unit) : M unit :=
  let '(file_index, signed_file) := item in
  info "- [%d/%d] %s"
       [LInt (file_index + 1); LInt num_signed_files;
        LPath (relative_filepath signed_file)].

Definition codesign_all_files
    (files : list AbsoluteAndRelativeFileName) : M bool :=
  let num_files := len files in
  '(have_ignored_files, signed_files) ←
    for_each (enumerate files) (codesign_all_files_body num_files)
             (false, []);
  (if have_ignored_files : bool then
     info "Signed %d files:" [LInt (len signed_files)];;
     let num_signed_files := len signed_files in
     for_each (enumerate signed_files)
              (codesign_all_files_report num_signed_files) tt
   else mret tt);;
  mret true.

(** The body of the loop of [codesign_bundles], on the loop's variable
    [signed_bundles]. *)
Definition codesign_bundles_body (file : AbsoluteAndRelativeFileName)
    (signed_bundles : gset Path) : M (gset Path) :=
  if negb (is_file_from_bundle file) then mret signed_bundles
  else
    bundle ← lift (get_bundle_from_file file);
    let bundle_name := relative_filepath bundle in
    if bool_decide (bundle_name ∈ signed_bundles)
    then mret signed_bundles
    else
      info "Running codesign routines on bundle %s" [LPath bundle_name];;
      codesign_remove_signature bundle;;
      codesign_file bundle;;
      mret (signed_bundles ∪ {[ bundle_name ]}).

Definition codesign_bundles
    (files : list AbsoluteAndRelativeFileName) : M bool :=
  for_each files codesign_bundles_body ∅;;
  mret true.

Definition sign_all_files
    (files : list AbsoluteAndRelativeFileName) : M unit :=
  ok ← codesign_all_files files;
  if negb ok then mret tt
  else
    ok ← codesign_bundles files;
    if negb ok then mret tt
    else mret tt.

End MacOSCodeSigner.

Arguments world {World} _.
Arguments events {World} _.
Arguments Build_State {World} _ _.

(** ** Vocabulary of the statements *)

(** The command line that removes the signature of the file at [p]. *)
Definition remove_command (p : Path) : Command :=
  [AStr "codesign"; AStr "--remove-signature"; APath p].

(** The command line that signs the file at [p], as [codesign_file]
    builds it. *)
Definition sign_command (config : Config) (p : Path) : Command :=
  [AStr "codesign"; AStr "--timestamp"; AStr "--options"; AStr "runtime";
   AStr ("--entitlements=" ++ DQUOTE ++ MACOS_ENTITLEMENTS_FILE config
           ++ DQUOTE);
   AStr "--sign"; AStr (MACOS_CODESIGN_IDENTITY config); APath p].

(** The command line that signs the file at [p], as the spec gives it. *)
Definition sign_command_of_spec (config : Config) (p : Path) : Command :=
  [AStr "codesign"; AStr "--timestamp"; AStr "--options"; AStr "runtime";
   AStr ("--entitlements=" ++ MACOS_ENTITLEMENTS_FILE config);
   AStr "--sign"; AStr (MACOS_CODESIGN_IDENTITY config); APath p].

(** Removing then signing the file at [p]. *)
Definition sign_one_commands (config : Config) (p : Path) : list Command :=
  [remove_command p; sign_command config p].

(** The commands invoked, in order. *)
Fixpoint commands (trace : list Event) : list Command :=
  match trace with
  | [] => []
  | Invocation command _ :: trace' => command :: commands trace'
  | Info _ _ :: trace' => commands trace'
  end.

(** How many times the trace signs the file at [p]. *)
Definition sign_count (config : Config) (p : Path)
    (trace : list Event) : nat :=
  length (List.filter (fun c => bool_decide (c = sign_command config p))
                      (commands trace)).

(** The log records with the given message. *)
Definition records (msg : string) (trace : list Event) : list Event :=
  List.filter (fun e => match e with
                        | Info m _ => String.eqb m msg
                        | Invocation _ _ => false
                        end) trace.

(** The two records with which the per-file pass reports on a file. *)
Definition is_progress_record (e : Event) : bool :=
  match e with
  | Info msg _ =>
      String.eqb msg "Ignoring file [%d/%d] %s"
      || String.eqb msg "Running codesigning routines for file [%d/%d] %s..."
  | Invocation _ _ => false
  end.

(** A file whose relative path is a genuine path object. *)
Definition wf_file (file : AbsoluteAndRelativeFileName) : Prop :=
  PurePath.wf (relative_filepath file) = true.

(** The bundle a file of a bundle belongs to: its base directory and the
    first part of its relative path. *)
Definition bundle_of (file : AbsoluteAndRelativeFileName)
    : AbsoluteAndRelativeFileName :=
  let first := take 1 (relative_filepath file) in
  FileName (base_dir file) (base_dir file ++ first) first.

(** What one signing of [file] adds to the trace. *)
Definition sign_one_events (config : Config)
    (file : AbsoluteAndRelativeFileName) : list Event :=
  [Info "Removing codesign signature from  %s..."
        [LPath (relative_filepath file)];
   Invocation (remove_command (absolute_filepath file)) MACOS;
   Info "Codesigning  %s..." [LPath (relative_filepath file)];
   Invocation (sign_command config (absolute_filepath file)) MACOS].

(** What the loop of the per-file pass adds to the trace. *)
Fixpoint per_file_events (config : Config) (num_files : Z)
    (indexed : list (Z * AbsoluteAndRelativeFileName)) : list Event :=
  match indexed with
  | [] => []
  | (file_index, file) :: rest =>
      (if check_file_is_to_be_signed file then
         Info "Running codesigning routines for file [%d/%d] %s..."
              [LInt (file_index + 1); LInt num_files;
               LPath (relative_filepath file)]
           :: sign_one_events config file
       else
         [Info "Ignoring file [%d/%d] %s"
               [LInt (file_index + 1); LInt num_files;
                LPath (relative_filepath file)]])
        ++ per_file_events config num_files rest
  end.

(** The summary of the per-file pass over the signed files. *)
Definition summary_events
    (signed_files : list AbsoluteAndRelativeFileName) : list Event :=
  Info "Signed %d files:" [LInt (len signed_files)]
    :: map (fun '(file_index, signed_file) =>
              Info "- [%d/%d] %s"
                   [LInt (file_index + 1); LInt (len signed_files);
                    LPath (relative_filepath signed_file)])
           (enumerate signed_files).

Definition codesign_all_files_events (config : Config)
    (files : list AbsoluteAndRelativeFileName) : list Event :=
  per_file_events config (len files) (enumerate files)
    ++ (if forallb check_file_is_to_be_signed files then []
        else summary_events (List.filter check_file_is_to_be_signed files)).

(** The bundles the bundle pass signs, in order, when the relative paths
    in [signed_bundles] have been signed already. *)
Fixpoint bundles_signed (files : list AbsoluteAndRelativeFileName)
    (signed_bundles : gset Path) : list AbsoluteAndRelativeFileName :=
  match files with
  | [] => []
  | file :: files' =>
      if is_file_from_bundle file then
        let bundle := bundle_of file in
        if bool_decide (relative_filepath bundle ∈ signed_bundles)
        then bundles_signed files' signed_bundles
        else bundle :: bundles_signed files'
                         (signed_bundles ∪ {[ relative_filepath bundle ]})
      else bundles_signed files' signed_bundles
  end.

(** What the bundle pass adds to the trace for one bundle it signs. *)
Definition bundle_events (config : Config)
    (bundle : AbsoluteAndRelativeFileName) : list Event :=
  Info "Running codesign routines on bundle %s"
       [LPath (relative_filepath bundle)]
    :: sign_one_events config bundle.

Definition codesign_bundles_events (config : Config)
    (files : list AbsoluteAndRelativeFileName) : list Event :=
  flat_map (bundle_events config) (bundles_signed files ∅).

(** Started in [st], the computation [m] returns [v], raising nothing,
    and adds exactly [trace] to the events. *)
Definition runs {World A : Type} (m : M World A) (st : State World)
    (v : A) (trace : list Event) : Prop :=
  ∃ st', m st = (Ok v, st') ∧ events st' = events st ++ trace.

(** The relative paths of the bundles that the files of the list
    belong to. *)
Definition bundle_names (files : list AbsoluteAndRelativeFileName)
    : gset Path :=
  list_to_set (map (fun file => take 1 (relative_filepath file))
                   (List.filter is_file_from_bundle files)).

(** The world after the commands have run one after the other. *)
Definition run_commands {World : Type} (exec : Command → World → World * Z)
    (commands : list Command) (w : World) : World :=
  fold_left (fun w command => (exec command w).1) commands w.

(** Whatever [m] returns or raises, it only adds to the events, and the
    world it leaves is the one its invocations produce, run in the order
    of the trace. *)
Definition tracks {World A : Type} (exec : Command → World → World * Z)
    (m : M World A) : Prop :=
  ∀ st r st',
    m st = (r, st') →
    ∃ trace, events st' = events st ++ trace
             ∧ world st' = run_commands exec (commands trace) (world st).

(** ** Concrete inputs *)

Module Examples.

Definition out : Path := ["/"; "out"].

(** The file at [rel] below the base directory [base]. *)
Definition file_in (base rel : Path) : AbsoluteAndRelativeFileName :=
  FileName base (base ++ rel) rel.

Definition app_executable : AbsoluteAndRelativeFileName :=
  file_in out ["App.app"; "Contents"; "MacOS"; "App"].

Definition readme : AbsoluteAndRelativeFileName :=
  file_in out ["readme.txt"].

Definition config : Config :=
  {| MACOS_ENTITLEMENTS_FILE := "/etc/entitlements.plist";
     MACOS_CODESIGN_IDENTITY := "Developer ID" |}.

(** The end-to-end scenario of the spec. *)
Definition scenario : list AbsoluteAndRelativeFileName :=
  [file_in out ["Foo.app"; "Contents"; "MacOS"; "Foo"];
   file_in out ["Foo.app"; "Contents"; "Resources"; "lib.dylib"];
   file_in out ["standalone.dylib"];
   file_in out ["readme.txt"]].

(** Two build trees holding a bundle of the same name. *)
Definition tree_a : Path := ["/"; "a"].
Definition tree_b : Path := ["/"; "b"].

Definition two_trees : list AbsoluteAndRelativeFileName :=
  [file_in tree_a ["X.app"; "Contents"; "MacOS"; "X"];
   file_in tree_b ["X.app"; "Contents"; "MacOS"; "X"];
   file_in tree_b ["X.app"; "Contents"; "Resources"; "lib.dylib"]].

(** A world without state in which every command succeeds. *)
Definition exec_ok (command : Command) (w : unit) : unit * Z := (w, 0%Z).

Definition start : State unit := Build_State tt [].

(** A world that counts the commands run in it. *)
Definition exec_count (command : Command) (n : nat) : nat * Z :=
  (S n, 0%Z).

End Examples.

(** ** Strings and paths *)

Lemma split_without_separator (c : ascii) (s : string) :
  Str.contains c s = false → Str.split c s = [s].
Proof.
  induction s as [|a s IH]; simpl; [done|].
  destruct (Ascii.eqb a c); simpl; [done|].
  intros H. by rewrite (IH H).
Qed.

Lemma endswith_app_not_root (s : string) :
  Str.endswith s ".app" = true → PurePath.is_root s = false.
Proof.
  intros H. unfold PurePath.is_root.
  destruct (String.eqb_spec s "/") as [->|_]; [done|].
  destruct (String.eqb_spec s "//") as [->|_]; done.
Qed.

Lemma endswith_app_keep_name (s : string) :
  Str.endswith s ".app" = true → PurePath.keep_name s = true.
Proof.
  intros H. unfold PurePath.keep_name.
  destruct (String.eqb_spec s "") as [->|_]; [done|].
  destruct (String.eqb_spec s ".") as [->|_]; done.
Qed.

Lemma parse_parts_name (s : string) :
  PurePath.is_name s = true → PurePath.parse_parts s = ("", [s]).
Proof.
  unfold PurePath.is_name. intros [Hkeep Hsep]%andb_prop.
  apply negb_true_iff in Hsep.
  unfold PurePath.parse_parts.
  destruct (String.eqb_spec s "") as [->|Hne]; [done|].
  destruct s as [|a s]; [done|].
  unfold PurePath.splitroot.
  simpl in Hsep. apply orb_false_elim in Hsep as [Ha Hs].
  rewrite Ha.
  rewrite split_without_separator by (simpl; by rewrite Ha, Hs).
  simpl. by rewrite Hkeep.
Qed.

Lemma truediv_name (p : Path) (s : string) :
  PurePath.is_name s = true → PurePath.truediv p s = p ++ [s].
Proof.
  intros H. unfold PurePath.truediv. by rewrite (parse_parts_name s H).
Qed.

Lemma strip_prefix_app (p q : Path) :
  PurePath.strip_prefix p (p ++ q) = Some q.
Proof.
  induction p as [|x p IH]; simpl; [done|].
  by rewrite String.eqb_refl.
Qed.

Lemma relative_to_base (p : Path) (s : string) :
  PurePath.is_root s = false → PurePath.relative_to (p ++ [s]) p = Ok [s].
Proof.
  intros H. unfold PurePath.relative_to.
  destruct p as [|x p].
  - simpl. unfold PurePath.is_absolute, PurePath.root. by rewrite H.
  - by rewrite strip_prefix_app.
Qed.

(** The first part of the relative path of a file of a bundle is a name. *)
Lemma bundle_name_is_name (s : string) (rest : Path) :
  PurePath.wf (s :: rest) = true → Str.endswith s ".app" = true →
  PurePath.is_name s = true.
Proof.
  simpl. intros [H _]%andb_prop Happ.
  by rewrite (endswith_app_not_root s Happ) in H.
Qed.

Lemma is_file_from_bundle_inv (file : AbsoluteAndRelativeFileName) :
  is_file_from_bundle file = true →
  ∃ s rest, relative_filepath file = s :: rest
            ∧ Str.endswith s ".app" = true.
Proof.
  unfold is_file_from_bundle.
  destruct (relative_filepath file) as [|s rest]; [done|].
  destruct (Str.endswith s ".app") eqn:E; [|done].
  intros _. by exists s, rest.
Qed.

Lemma get_bundle_from_file_ok (file : AbsoluteAndRelativeFileName) :
  wf_file file → is_file_from_bundle file = true →
  get_bundle_from_file file = Ok (bundle_of file).
Proof.
  intros Hwf Hb. unfold get_bundle_from_file, bundle_of. rewrite Hb. simpl.
  destruct (is_file_from_bundle_inv file Hb) as (s & rest & Hrel & Happ).
  unfold wf_file in Hwf. rewrite Hrel in *. simpl.
  rewrite (truediv_name _ _ (bundle_name_is_name s rest Hwf Happ)).
  unfold AbsoluteAndRelativeFileName_init.
  by rewrite (relative_to_base _ _ (endswith_app_not_root s Happ)).
Qed.

(** ** Classification *)

Lemma slice_1_3_lookup {A : Type} (l : list A) (a b : A) :
  (3 ≤ length l)%nat →
  slice 1 3 l = [a; b] ↔ l !! 1 = Some a ∧ l !! 2 = Some b.
Proof.
  destruct l as [|x0 [|x1 [|x2 l]]]; simpl; try lia.
  intros _. unfold slice. simpl. rewrite take_0. split.
  - intros [= -> ->]. done.
  - intros [[= ->] [= ->]]. done.
Qed.

Lemma is_file_from_bundle_iff (file : AbsoluteAndRelativeFileName) :
  is_file_from_bundle file = true ↔
  ∃ s rest, relative_filepath file = s :: rest
            ∧ Str.endswith s ".app" = true.
Proof.
  split; [apply is_file_from_bundle_inv|].
  intros (s & rest & Hrel & Happ).
  unfold is_file_from_bundle. by rewrite Hrel, Happ.
Qed.

Lemma name_prefixes_elements :
  elements NAME_PREFIXES_TO_BE_SIGNED = ["python"].
Proof. by vm_compute. Qed.

Lemma extensions_elem_of (ext : string) :
  ext ∈ EXTENSIONS_TO_BE_SIGNED ↔
  ext = ".dylib" ∨ ext = ".so" ∨ ext = ".dmg".
Proof.
  unfold EXTENSIONS_TO_BE_SIGNED.
  rewrite !elem_of_union, !elem_of_singleton. tauto.
Qed.

(** C1: for a file of a bundle, [get_bundle_from_file] returns a
    descriptor with the file's base directory whose relative path is the
    first part of the file's relative path and nothing else; for the
    relative path App.app/Contents/MacOS/App that is App.app. *)
Theorem get_bundle_from_file_first_segment
    (file : AbsoluteAndRelativeFileName) :
  wf_file file →
  is_file_from_bundle file = true →
  ∃ bundle first,
    get_bundle_from_file file = Ok bundle
    ∧ base_dir bundle = base_dir file
    ∧ head (relative_filepath file) = Some first
    ∧ relative_filepath bundle = [first]
    ∧ (relative_filepath file = ["App.app"; "Contents"; "MacOS"; "App"] →
       relative_filepath bundle = ["App.app"]).
Proof.
  intros Hwf Hb.
  destruct (is_file_from_bundle_inv file Hb) as (s & rest & Hrel & _).
  exists (bundle_of file), s.
  rewrite (get_bundle_from_file_ok file Hwf Hb).
  unfold bundle_of. rewrite Hrel. simpl.
  repeat split. intros [= -> _]. done.
Qed.

Lemma get_bundle_from_file_first_segment_witness :
  wf_file Examples.app_executable
  ∧ is_file_from_bundle Examples.app_executable = true
  ∧ ∃ bundle first,
      get_bundle_from_file Examples.app_executable = Ok bundle
      ∧ base_dir bundle = base_dir Examples.app_executable
      ∧ head (relative_filepath Examples.app_executable) = Some first
      ∧ relative_filepath bundle = [first]
      ∧ (relative_filepath Examples.app_executable
           = ["App.app"; "Contents"; "MacOS"; "App"] →
         relative_filepath bundle = ["App.app"]).
Proof.
  split; [reflexivity|]. split; [reflexivity|].
  apply (get_bundle_from_file_first_segment Examples.app_executable);
    reflexivity.
Defined.

(** C9: on a file that is not of a bundle [get_bundle_from_file] raises
    the assertion's error and returns nothing; on a file of a bundle it
    returns a descriptor. *)
Theorem get_bundle_from_file_asserts (file : AbsoluteAndRelativeFileName) :
  (is_file_from_bundle file = false →
   get_bundle_from_file file = Raise AssertionError)
  ∧ (wf_file file → is_file_from_bundle file = true →
     ∃ bundle, get_bundle_from_file file = Ok bundle).
Proof.
  split.
  - intros H. unfold get_bundle_from_file. by rewrite H.
  - intros Hwf Hb. exists (bundle_of file).
    by apply get_bundle_from_file_ok.
Qed.

Lemma get_bundle_from_file_asserts_witness :
  (is_file_from_bundle Examples.readme = false
   ∧ get_bundle_from_file Examples.readme = Raise AssertionError)
  ∧ (wf_file Examples.app_executable
     ∧ is_file_from_bundle Examples.app_executable = true
     ∧ ∃ bundle, get_bundle_from_file Examples.app_executable = Ok bundle).
Proof.
  split.
  - split; [reflexivity|].
    apply (proj1 (get_bundle_from_file_asserts Examples.readme)).
    reflexivity.
  - split; [reflexivity|]. split; [reflexivity|].
    apply (proj2 (get_bundle_from_file_asserts Examples.app_executable));
      reflexivity.
Defined.

(** C5: [is_bundle_executable_file] holds exactly of the files of a
    bundle (first part ending in .app) whose relative path has at least
    three parts, the second and third being Contents and MacOS; a file
    whose first part does not end in .app is neither of a bundle nor a
    bundle executable. *)
Theorem is_bundle_executable_file_spec (file : AbsoluteAndRelativeFileName) :
  (is_bundle_executable_file file = true ↔
     is_file_from_bundle file = true
     ∧ (3 ≤ length (relative_filepath file))%nat
     ∧ relative_filepath file !! 1 = Some "Contents"
     ∧ relative_filepath file !! 2 = Some "MacOS")
  ∧ (is_file_from_bundle file = true ↔
       ∃ first rest, relative_filepath file = first :: rest
                     ∧ Str.endswith first ".app" = true)
  ∧ ((∀ first rest, relative_filepath file = first :: rest →
                    Str.endswith first ".app" = false) →
     is_file_from_bundle file = false
     ∧ is_bundle_executable_file file = false).
Proof.
  split; [|split].
  - unfold is_bundle_executable_file.
    destruct (is_file_from_bundle file); simpl;
      [|by split; [|intros [? _]]].
    destruct (Nat.ltb_spec (length (relative_filepath file)) 3) as [Hlt|Hge].
    + split; [done|]. intros (_ & H & _). lia.
    + case_bool_decide as Hs; simpl.
      * apply slice_1_3_lookup in Hs as [H1 H2]; done.
      * split; [done|]. intros (_ & _ & H1 & H2).
        destruct Hs. by apply slice_1_3_lookup.
  - apply is_file_from_bundle_iff.
  - intros H.
    assert (is_file_from_bundle file = false) as Hb.
    { unfold is_file_from_bundle.
      destruct (relative_filepath file) as [|s rest] eqn:E; [done|].
      by rewrite (H s rest eq_refl). }
    split; [done|]. unfold is_bundle_executable_file. by rewrite Hb.
Qed.

Lemma is_bundle_executable_file_spec_witness :
  (∀ first rest, relative_filepath Examples.readme = first :: rest →
                 Str.endswith first ".app" = false)
  ∧ is_file_from_bundle Examples.readme = false
  ∧ is_bundle_executable_file Examples.readme = false.
Proof.
  assert (∀ first rest, relative_filepath Examples.readme = first :: rest →
                        Str.endswith first ".app" = false) as H.
  { intros first rest [= <- _]. reflexivity. }
  split; [exact H|].
  exact (proj2 (proj2 (is_bundle_executable_file_spec Examples.readme)) H).
Defined.

(** C4: [check_file_is_to_be_signed] holds exactly of the bundle
    executables, of the files whose name starts with a prefix of the
    name-prefix set, which is python alone, and of the files whose
    extension, dot included and letter case kept, is in the extension
    set, which is .dylib, .so and .dmg; so those three extensions are
    eligible, and .txt is not when no other rule applies. *)
Theorem check_file_is_to_be_signed_spec (file : AbsoluteAndRelativeFileName) :
  let base_name := PurePath.name (relative_filepath file) in
  let extension := PurePath.suffix (relative_filepath file) in
  (check_file_is_to_be_signed file = true ↔
     is_bundle_executable_file file = true
     ∨ (∃ prefix, prefix ∈ NAME_PREFIXES_TO_BE_SIGNED
                  ∧ Str.startswith base_name prefix = true)
     ∨ extension ∈ EXTENSIONS_TO_BE_SIGNED)
  ∧ (∀ prefix, prefix ∈ NAME_PREFIXES_TO_BE_SIGNED ↔ prefix = "python")
  ∧ (∀ ext, ext ∈ EXTENSIONS_TO_BE_SIGNED ↔
            ext = ".dylib" ∨ ext = ".so" ∨ ext = ".dmg")
  ∧ (extension = ".dylib" ∨ extension = ".so" ∨ extension = ".dmg" →
     check_file_is_to_be_signed file = true)
  ∧ (extension = ".txt" →
     is_bundle_executable_file file = false →
     Str.startswith base_name "python" = false →
     check_file_is_to_be_signed file = false)
  ∧ (extension = ".DYLIB" →
     is_bundle_executable_file file = false →
     Str.startswith base_name "python" = false →
     check_file_is_to_be_signed file = false).
Proof.
  intros base_name extension.
  assert (check_file_is_to_be_signed file = true ↔
          is_bundle_executable_file file = true
          ∨ Str.startswith base_name "python" = true
          ∨ extension ∈ EXTENSIONS_TO_BE_SIGNED) as Hiff.
  { unfold check_file_is_to_be_signed. rewrite name_prefixes_elements.
    fold base_name extension. simpl.
    destruct (is_bundle_executable_file file); [by split; auto|].
    destruct (Str.startswith base_name "python"); simpl; [by split; auto|].
    rewrite bool_decide_eq_true. split; [by auto|].
    by intros [?|[?|?]]. }
  assert (∀ prefix, prefix ∈ NAME_PREFIXES_TO_BE_SIGNED ↔ prefix = "python")
    as Hprefix.
  { intros prefix. unfold NAME_PREFIXES_TO_BE_SIGNED.
    apply elem_of_singleton. }
  split; [|split; [exact Hprefix|split; [exact extensions_elem_of|]]].
  - rewrite Hiff. split.
    + intros [?|[?|?]]; [by left| |by right; right].
      right; left. exists "python". by rewrite Hprefix.
    + intros [?|[(prefix & Hin & Hstart)|?]]; [by left| |by right; right].
      apply Hprefix in Hin as ->. by right; left.
  - split; [|split].
    + intros Hext. apply Hiff. right; right. by apply extensions_elem_of.
    + intros Hext Hexe Hname. apply not_true_is_false. rewrite Hiff.
      rewrite extensions_elem_of, Hext, Hexe, Hname.
      by intros [?|[?|[?|[?|?]]]].
    + intros Hext Hexe Hname. apply not_true_is_false. rewrite Hiff.
      rewrite extensions_elem_of, Hext, Hexe, Hname.
      by intros [?|[?|[?|[?|?]]]].
Qed.

Lemma check_file_is_to_be_signed_spec_witness :
  (PurePath.suffix (relative_filepath Examples.readme) = ".txt"
   ∧ is_bundle_executable_file Examples.readme = false
   ∧ Str.startswith (PurePath.name (relative_filepath Examples.readme))
                    "python" = false
   ∧ check_file_is_to_be_signed Examples.readme = false)
  ∧ (PurePath.suffix
       (relative_filepath (Examples.file_in Examples.out ["lib.so"])) = ".so"
     ∧ check_file_is_to_be_signed
         (Examples.file_in Examples.out ["lib.so"]) = true).
Proof.
  split.
  - pose proof (check_file_is_to_be_signed_spec Examples.readme) as H.
    cbv zeta in H. destruct H as (_ & _ & _ & _ & Htxt & _).
    split; [reflexivity|]. split; [reflexivity|]. split; [reflexivity|].
    apply Htxt; reflexivity.
  - pose proof (check_file_is_to_be_signed_spec
                  (Examples.file_in Examples.out ["lib.so"])) as H.
    cbv zeta in H. destruct H as (_ & _ & _ & Hext & _).
    split; [reflexivity|].
    apply Hext. right; left; reflexivity.
Defined.

(** ** The set of signed bundles *)

Lemma signed_bundles_add_known (signed_bundles : gset Path) (name : Path) :
  name ∈ signed_bundles → signed_bundles ∪ {[ name ]} = signed_bundles.
Proof.
  intros Hin. apply set_eq. intros x.
  rewrite elem_of_union, elem_of_singleton.
  split; [by intros [?| ->]|by left].
Qed.

Lemma signed_bundles_add_in (signed_bundles : gset Path) (name : Path) :
  name ∈ signed_bundles ∪ {[ name ]}.
Proof. rewrite elem_of_union, elem_of_singleton. by right. Qed.

Lemma signed_bundles_add_mono (signed_bundles : gset Path)
    (name other : Path) :
  name ∈ signed_bundles → name ∈ signed_bundles ∪ {[ other ]}.
Proof. rewrite elem_of_union. by left. Qed.

Lemma signed_bundles_add_other (signed_bundles : gset Path)
    (name other : Path) :
  name ∉ signed_bundles → name ≠ other →
  name ∉ signed_bundles ∪ {[ other ]}.
Proof.
  intros Hnot Hne. rewrite elem_of_union, elem_of_singleton.
  by intros [?|?].
Qed.

(** ** Running the signer *)

Section Runs.

Context {World : Type}.
Variable exec : Command → World → World * Z.
Variable config : Config.

#[local] Existing Instance M_ret.
#[local] Existing Instance M_bind.

Lemma runs_ret {A : Type} (v : A) (st : State World) :
  runs (mret v : M World A) st v [].
Proof. exists st. by rewrite app_nil_r. Qed.

Lemma runs_bind {A B : Type} (m : M World A) (f : A → M World B)
    (st : State World) (a : A) (b : B) (tr1 tr2 : list Event) :
  runs m st a tr1 →
  (∀ st', runs (f a) st' b tr2) →
  runs (m ≫= f) st b (tr1 ++ tr2).
Proof.
  intros (st1 & Hm & H1) Hf.
  destruct (Hf st1) as (st2 & Hfa & H2).
  exists st2. split.
  - unfold mbind, M_bind. by rewrite Hm.
  - by rewrite H2, H1, app_assoc.
Qed.

Lemma runs_lift {A : Type} (v : A) (st : State World) :
  runs (lift World (Ok v)) st v [].
Proof. exists st. by rewrite app_nil_r. Qed.

Lemma runs_info (msg : string) (args : list LogArg) (st : State World) :
  runs (info World msg args) st () [Info msg args].
Proof. by eexists. Qed.

Lemma runs_run_command_or_mock (command : Command) (platform : Platform)
    (st : State World) :
  runs (run_command_or_mock World exec command platform) st ()
       [Invocation command platform].
Proof. by eexists. Qed.

Lemma runs_codesign_remove_signature (file : AbsoluteAndRelativeFileName)
    (st : State World) :
  runs (codesign_remove_signature World exec file) st ()
       [Info "Removing codesign signature from  %s..."
             [LPath (relative_filepath file)];
        Invocation (remove_command (absolute_filepath file)) MACOS].
Proof.
  unfold codesign_remove_signature.
  apply (runs_bind _ _ _ () () [_] [_]); [apply runs_info|].
  intros st'. apply runs_run_command_or_mock.
Qed.

Lemma runs_codesign_file (file : AbsoluteAndRelativeFileName)
    (st : State World) :
  runs (codesign_file World exec config file) st ()
       [Info "Codesigning  %s..." [LPath (relative_filepath file)];
        Invocation (sign_command config (absolute_filepath file)) MACOS].
Proof.
  unfold codesign_file.
  apply (runs_bind _ _ _ () () [_] [_]); [apply runs_info|].
  intros st'. apply runs_run_command_or_mock.
Qed.

(** Removing the signature, signing, and going on with [k]. *)
Lemma runs_sign_one {A : Type} (file : AbsoluteAndRelativeFileName)
    (k : M World A) (v : A) (trace : list Event) (st : State World) :
  (∀ st', runs k st' v trace) →
  runs (codesign_remove_signature World exec file;;
        codesign_file World exec config file;; k) st v
       (sign_one_events config file ++ trace).
Proof.
  intros Hk.
  apply (runs_bind _ _ _ () v [_; _] ([_; _] ++ trace));
    [apply runs_codesign_remove_signature|].
  intros st1.
  apply (runs_bind _ _ _ () v [_; _] trace);
    [apply runs_codesign_file|].
  intros st2. apply Hk.
Qed.

(** *** The per-file pass *)

Lemma runs_for_each_cons {A S : Type} (body : A → S → M World S)
    (x : A) (xs : list A) (s s' v : S) (tr1 tr2 : list Event)
    (st : State World) :
  runs (body x s) st s' tr1 →
  (∀ st', runs (for_each World xs body s') st' v tr2) →
  runs (for_each World (x :: xs) body s) st v (tr1 ++ tr2).
Proof. intros Hx Hxs. simpl. by apply (runs_bind _ _ _ s'). Qed.

Lemma runs_codesign_all_files_body (num_files file_index : Z)
    (file : AbsoluteAndRelativeFileName) (have_ignored_files : bool)
    (signed_files : list AbsoluteAndRelativeFileName) (st : State World) :
  runs (codesign_all_files_body World exec config num_files
          (file_index, file) (have_ignored_files, signed_files)) st
       (if check_file_is_to_be_signed file
        then (have_ignored_files, signed_files ++ [file])
        else (true, signed_files))
       (per_file_events config num_files [(file_index, file)]).
Proof.
  unfold codesign_all_files_body, per_file_events.
  rewrite app_nil_r.
  destruct (check_file_is_to_be_signed file); cbn [negb].
  - apply (runs_bind _ _ _ () _ [_] (sign_one_events config file));
      [apply runs_info|].
    intros st1. rewrite <- (app_nil_r (sign_one_events config file)).
    apply runs_sign_one. intros st2. apply runs_ret.
  - apply (runs_bind _ _ _ () _ [_] []); [apply runs_info|].
    intros st1. apply runs_ret.
Qed.

Lemma per_file_events_cons (num_files : Z)
    (item : Z * AbsoluteAndRelativeFileName)
    (indexed : list (Z * AbsoluteAndRelativeFileName)) :
  per_file_events config num_files (item :: indexed)
  = per_file_events config num_files [item]
      ++ per_file_events config num_files indexed.
Proof. destruct item as [i file]. simpl. by rewrite app_nil_r. Qed.

Lemma runs_codesign_all_files_loop (num_files : Z)
    (indexed : list (Z * AbsoluteAndRelativeFileName))
    (have_ignored_files : bool)
    (signed_files : list AbsoluteAndRelativeFileName) (st : State World) :
  runs (for_each World indexed
          (codesign_all_files_body World exec config num_files)
          (have_ignored_files, signed_files)) st
       (have_ignored_files
          || negb (forallb check_file_is_to_be_signed indexed.*2),
        signed_files
          ++ List.filter check_file_is_to_be_signed indexed.*2)
       (per_file_events config num_files indexed).
Proof.
  revert have_ignored_files signed_files st.
  induction indexed as [|[i file] indexed IH]; intros hi sf st.
  - simpl. rewrite orb_false_r, app_nil_r. apply runs_ret.
  - rewrite per_file_events_cons.
    eapply runs_for_each_cons; [apply runs_codesign_all_files_body|].
    intros st1. rewrite fmap_cons. cbn [snd forallb List.filter].
    destruct (check_file_is_to_be_signed file); cbn [andb].
    + specialize (IH hi (sf ++ [file]) st1).
      by rewrite <- app_assoc in IH.
    + cbn [negb]. rewrite orb_true_r. apply (IH true sf st1).
Qed.

Lemma runs_codesign_all_files_report (num_signed_files : Z)
    (indexed : list (Z * AbsoluteAndRelativeFileName)) (st : State World) :
  runs (for_each World indexed
          (codesign_all_files_report World num_signed_files) ()) st ()
       (map (fun '(file_index, signed_file) =>
               Info "- [%d/%d] %s"
                    [LInt (file_index + 1); LInt num_signed_files;
                     LPath (relative_filepath signed_file)])
            indexed).
Proof.
  revert st. induction indexed as [|[i file] indexed IH]; intros st.
  - apply runs_ret.
  - apply (runs_for_each_cons _ _ _ () () () [_]); [|exact IH].
    apply runs_info.
Qed.

Lemma enumerate_from_snd {A : Type} (i : Z) (l : list A) :
  (enumerate_from i l).*2 = l.
Proof.
  revert i. induction l as [|x l IH]; intros i; simpl; [done|].
  by rewrite IH.
Qed.

Lemma runs_codesign_all_files (files : list AbsoluteAndRelativeFileName)
    (st : State World) :
  runs (codesign_all_files World exec config files) st true
       (codesign_all_files_events config files).
Proof.
  unfold codesign_all_files, codesign_all_files_events.
  eapply runs_bind; [apply runs_codesign_all_files_loop|].
  intros st1. unfold enumerate. rewrite enumerate_from_snd.
  cbn [orb app]. cbn beta iota.
  rewrite <- (app_nil_r (if forallb _ _ then _ else _)).
  apply (runs_bind _ _ _ () true); [|intros st2; apply runs_ret].
  destruct (forallb check_file_is_to_be_signed files); cbn [negb].
  - apply runs_ret.
  - unfold summary_events.
    apply (runs_bind _ _ _ () () [_]); [apply runs_info|].
    intros st2. apply runs_codesign_all_files_report.
Qed.

(** *** The bundle pass *)

Lemma runs_codesign_bundles_body (file : AbsoluteAndRelativeFileName)
    (signed_bundles : gset Path) (st : State World) :
  wf_file file →
  runs (codesign_bundles_body World exec config file signed_bundles) st
       (if is_file_from_bundle file
        then signed_bundles ∪ {[ relative_filepath (bundle_of file) ]}
        else signed_bundles)
       (flat_map (bundle_events config) (bundles_signed [file] signed_bundles)).
Proof.
  intros Hwf. unfold codesign_bundles_body, bundles_signed.
  destruct (is_file_from_bundle file) eqn:Hb; cbn [negb];
    [|apply runs_ret].
  rewrite (get_bundle_from_file_ok file Hwf Hb).
  apply (runs_bind _ _ _ (bundle_of file) _ []); [apply runs_lift|].
  intros st1. case_bool_decide as Hin.
  - replace (signed_bundles ∪ {[relative_filepath (bundle_of file)]})
      with signed_bundles by (by rewrite signed_bundles_add_known).
    apply runs_ret.
  - cbn [flat_map]. rewrite app_nil_r. unfold bundle_events.
    apply (runs_bind _ _ _ () _ [_]); [apply runs_info|].
    intros st2.
    rewrite <- (app_nil_r (sign_one_events config (bundle_of file))).
    apply runs_sign_one. intros st3. apply runs_ret.
Qed.

Lemma bundles_signed_cons (file : AbsoluteAndRelativeFileName)
    (files : list AbsoluteAndRelativeFileName)
    (signed_bundles : gset Path) :
  bundles_signed (file :: files) signed_bundles
  = bundles_signed [file] signed_bundles
      ++ bundles_signed files
           (if is_file_from_bundle file
            then signed_bundles ∪ {[ relative_filepath (bundle_of file) ]}
            else signed_bundles).
Proof.
  simpl. destruct (is_file_from_bundle file); [|done].
  case_bool_decide as Hin; [|done].
  by replace (signed_bundles ∪ {[relative_filepath (bundle_of file)]})
    with signed_bundles by (by rewrite signed_bundles_add_known).
Qed.

Lemma runs_codesign_bundles_loop
    (files : list AbsoluteAndRelativeFileName) :
  Forall wf_file files →
  ∀ (signed_bundles : gset Path) (st : State World),
    ∃ signed_bundles',
      runs (for_each World files
              (codesign_bundles_body World exec config) signed_bundles)
           st signed_bundles'
           (flat_map (bundle_events config) (bundles_signed files signed_bundles)).
Proof.
  induction 1 as [|file files Hwf _ IH]; intros signed st.
  - exists signed. apply runs_ret.
  - rewrite bundles_signed_cons, flat_map_app.
    set (signed1 := if is_file_from_bundle file
                    then signed ∪ {[relative_filepath (bundle_of file)]}
                    else signed).
    assert (∀ st', ∃ signed', runs
              (for_each World files
                 (codesign_bundles_body World exec config) signed1)
              st' signed'
              (flat_map (bundle_events config) (bundles_signed files signed1)))
      as Hrest by (intros st'; apply IH).
    destruct (runs_codesign_bundles_body file signed st Hwf)
      as (st1 & Hbody & Hev1).
    destruct (Hrest st1) as (signed' & st2 & Hloop & Hev2).
    exists signed', st2. split.
    + simpl. unfold mbind, M_bind. rewrite Hbody. exact Hloop.
    + by rewrite Hev2, Hev1, app_assoc.
Qed.

Lemma runs_codesign_bundles (files : list AbsoluteAndRelativeFileName)
    (st : State World) :
  Forall wf_file files →
  runs (codesign_bundles World exec config files) st true
       (codesign_bundles_events config files).
Proof.
  intros Hwf. unfold codesign_bundles, codesign_bundles_events.
  destruct (runs_codesign_bundles_loop files Hwf ∅ st)
    as (signed' & Hloop).
  rewrite <- (app_nil_r (flat_map _ _)).
  apply (runs_bind _ _ _ signed' true); [exact Hloop|].
  intros st1. apply runs_ret.
Qed.

Lemma runs_sign_all_files (files : list AbsoluteAndRelativeFileName)
    (st : State World) :
  Forall wf_file files →
  runs (sign_all_files World exec config files) st ()
       (codesign_all_files_events config files
          ++ codesign_bundles_events config files).
Proof.
  intros Hwf. unfold sign_all_files.
  apply (runs_bind _ _ _ true ()); [apply runs_codesign_all_files|].
  intros st1. cbn [negb].
  rewrite <- (app_nil_r (codesign_bundles_events config files)).
  apply (runs_bind _ _ _ true ()); [by apply runs_codesign_bundles|].
  intros st2. apply runs_ret.
Qed.

End Runs.

(** ** The commands of the two passes *)

Section Commands.

Variable config : Config.

Lemma commands_app (t1 t2 : list Event) :
  commands (t1 ++ t2) = commands t1 ++ commands t2.
Proof.
  induction t1 as [|[msg args|command platform] t1 IH]; simpl;
    [done|done|by f_equal].
Qed.

Lemma commands_per_file_events (num_files : Z)
    (indexed : list (Z * AbsoluteAndRelativeFileName)) :
  commands (per_file_events config num_files indexed)
  = flat_map (sign_one_commands config)
      (map absolute_filepath
         (List.filter check_file_is_to_be_signed indexed.*2)).
Proof.
  induction indexed as [|[i file] indexed IH]; [done|].
  cbn [per_file_events]. rewrite commands_app, IH, fmap_cons.
  cbn [snd List.filter].
  by destruct (check_file_is_to_be_signed file).
Qed.

Lemma commands_summary_events
    (signed_files : list AbsoluteAndRelativeFileName) :
  commands (summary_events signed_files) = [].
Proof.
  unfold summary_events. cbn [commands].
  induction (enumerate signed_files) as [|[i file] indexed IH]; done.
Qed.

Lemma commands_codesign_all_files_events
    (files : list AbsoluteAndRelativeFileName) :
  commands (codesign_all_files_events config files)
  = flat_map (sign_one_commands config)
      (map absolute_filepath
         (List.filter check_file_is_to_be_signed files)).
Proof.
  unfold codesign_all_files_events, enumerate.
  rewrite commands_app, commands_per_file_events, enumerate_from_snd.
  destruct (forallb check_file_is_to_be_signed files);
    [|rewrite commands_summary_events]; by rewrite app_nil_r.
Qed.

Lemma commands_codesign_bundles_events
    (files : list AbsoluteAndRelativeFileName) :
  commands (codesign_bundles_events config files)
  = flat_map (sign_one_commands config)
      (map absolute_filepath (bundles_signed files ∅)).
Proof.
  unfold codesign_bundles_events.
  induction (bundles_signed files ∅) as [|bundle bundles IH]; [done|].
  cbn [flat_map map]. rewrite commands_app, IH. done.
Qed.

Lemma remove_is_not_sign (p q : Path) :
  remove_command p ≠ sign_command config q.
Proof. done. Qed.

Lemma sign_command_inj (p q : Path) :
  sign_command config p = sign_command config q → p = q.
Proof. by intros [= ->]. Qed.

(** In a sequence of remove-then-sign pairs every sign command comes
    right after the remove command of the same file. *)
Lemma sign_follows_remove (artifacts : list Path) :
  ∀ (before after : list Command) (p : Path),
    flat_map (sign_one_commands config) artifacts
      = before ++ sign_command config p :: after →
    ∃ before', before = before' ++ [remove_command p].
Proof.
  induction artifacts as [|a artifacts IH]; intros before after p H.
  - by destruct before.
  - cbn [flat_map sign_one_commands app] in H.
    destruct before as [|c1 [|c2 before]].
    + discriminate H.
    + injection H as <- -> _. by exists [].
    + injection H as <- <- H.
      destruct (IH _ _ _ H) as [before' ->].
      by exists (remove_command a :: sign_command config a :: before').
Qed.

(** And every remove command is followed at once by the sign command of
    the same file. *)
Lemma remove_precedes_sign (artifacts : list Path) :
  ∀ (before after : list Command) (p : Path),
    flat_map (sign_one_commands config) artifacts
      = before ++ remove_command p :: after →
    ∃ after', after = sign_command config p :: after'.
Proof.
  induction artifacts as [|a artifacts IH]; intros before after p H.
  - by destruct before.
  - cbn [flat_map sign_one_commands app] in H.
    destruct before as [|c1 [|c2 before]].
    + injection H as -> <-. by eexists.
    + discriminate H.
    + injection H as _ _ H. by eapply IH.
Qed.

(** The number of signings of [p] among remove-then-sign pairs. *)
Lemma sign_count_pairs (p : Path) (artifacts : list Path) :
  length (List.filter (fun c => bool_decide (c = sign_command config p))
            (flat_map (sign_one_commands config) artifacts))
  = length (List.filter (fun a => bool_decide (a = p)) artifacts).
Proof.
  induction artifacts as [|a artifacts IH]; [done|].
  cbn [flat_map sign_one_commands app List.filter].
  rewrite (bool_decide_eq_false_2 _ (remove_is_not_sign a p)).
  destruct (decide (a = p)) as [->|Hne].
  - rewrite !bool_decide_eq_true_2 by done. simpl. by rewrite IH.
  - rewrite (bool_decide_eq_false_2 (a = p)) by done.
    rewrite bool_decide_eq_false_2; [done|].
    intros H. by apply sign_command_inj in H.
Qed.

End Commands.

(** ** The bundles the bundle pass signs *)

Lemma bundle_of_from_bundle (file : AbsoluteAndRelativeFileName) :
  is_file_from_bundle file = true →
  ∃ first rest,
    relative_filepath file = first :: rest
    ∧ Str.endswith first ".app" = true
    ∧ bundle_of file
      = FileName (base_dir file) (base_dir file ++ [first]) [first].
Proof.
  intros (first & rest & Hrel & Happ)%is_file_from_bundle_inv.
  exists first, rest. unfold bundle_of. by rewrite Hrel.
Qed.

(** A bundle whose name is in the set is not signed again. *)
Lemma bundles_signed_skips (files : list AbsoluteAndRelativeFileName) :
  ∀ (signed_bundles : gset Path) (p : Path) (first : string),
    last p = Some first →
    [first] ∈ signed_bundles →
    List.filter (fun bundle => bool_decide (absolute_filepath bundle = p))
                (bundles_signed files signed_bundles) = [].
Proof.
  induction files as [|file files IH]; intros signed p first Hlast Hin;
    [done|].
  cbn [bundles_signed].
  destruct (is_file_from_bundle file) eqn:Hb; [|by eapply IH].
  destruct (bundle_of_from_bundle file Hb) as (s & rest & Hrel & _ & ->).
  cbn [relative_filepath].
  case_bool_decide as Hs; [by eapply IH|].
  cbn [List.filter absolute_filepath].
  rewrite bool_decide_eq_false_2.
  - eapply IH; [done|]. by apply signed_bundles_add_mono.
  - intros <-. rewrite last_snoc in Hlast. by simplify_eq.
Qed.

Lemma bundles_signed_at_most_once
    (files : list AbsoluteAndRelativeFileName) :
  ∀ (signed_bundles : gset Path) (p : Path),
    (length (List.filter
               (fun bundle => bool_decide (absolute_filepath bundle = p))
               (bundles_signed files signed_bundles)) ≤ 1)%nat.
Proof.
  induction files as [|file files IH]; intros signed p; [simpl; lia|].
  cbn [bundles_signed].
  destruct (is_file_from_bundle file) eqn:Hb; [|apply IH].
  destruct (bundle_of_from_bundle file Hb) as (s & rest & Hrel & _ & ->).
  cbn [relative_filepath].
  case_bool_decide as Hs; [apply IH|].
  cbn [List.filter absolute_filepath].
  case_bool_decide as Hp; [|apply IH].
  rewrite (bundles_signed_skips files _ p s);
    [done| |apply signed_bundles_add_in].
  rewrite <- Hp. apply last_snoc.
Qed.

Lemma bundles_signed_once (files : list AbsoluteAndRelativeFileName) :
  ∀ (signed_bundles : gset Path) (file : AbsoluteAndRelativeFileName)
    (first : string) (rest : Path),
    file ∈ files →
    relative_filepath file = first :: rest →
    Str.endswith first ".app" = true →
    [first] ∉ signed_bundles →
    (∀ other rest', other ∈ files →
                    relative_filepath other = first :: rest' →
                    base_dir other = base_dir file) →
    length (List.filter
              (fun bundle =>
                 bool_decide (absolute_filepath bundle
                                = base_dir file ++ [first]))
              (bundles_signed files signed_bundles)) = 1%nat.
Proof.
  induction files as [|g files IH];
    intros signed file first rest Hin Hrel Happ Hnew Hbase.
  { by apply elem_of_nil in Hin. }
  assert (is_file_from_bundle file = true) as Hfile
    by (apply is_file_from_bundle_iff; eauto).
  assert (∀ other rest', other ∈ files →
            relative_filepath other = first :: rest' →
            base_dir other = base_dir file) as Hbase'.
  { intros other rest' Ho. apply Hbase. by right. }
  cbn [bundles_signed].
  destruct (is_file_from_bundle g) eqn:Hb.
  - destruct (bundle_of_from_bundle g Hb) as (s & grest & Hg & _ & ->).
    cbn [relative_filepath].
    destruct (decide (s = first)) as [->|Hne].
    + rewrite bool_decide_eq_false_2 by done.
      cbn [List.filter absolute_filepath].
      rewrite (Hbase g grest) by (done || by left).
      rewrite bool_decide_eq_true_2 by done.
      rewrite (bundles_signed_skips files _ _ first);
        [done|apply last_snoc|apply signed_bundles_add_in].
    + assert (file ∈ files) as Hin'.
      { apply elem_of_cons in Hin as [->|?]; [|done]. congruence. }
      case_bool_decide as Hs; [by eapply IH|].
      cbn [List.filter absolute_filepath].
      rewrite bool_decide_eq_false_2.
      * eapply IH; try done.
        apply signed_bundles_add_other; [done|]. by intros [= ?].
      * intros Heq. apply app_inj_tail in Heq as [_ ?]. done.
  - assert (file ∈ files) as Hin'.
    { apply elem_of_cons in Hin as [->|?]; [|done]. congruence. }
    by eapply IH.
Qed.

Lemma bundles_signed_origin (files : list AbsoluteAndRelativeFileName) :
  ∀ (signed_bundles : gset Path) (bundle : AbsoluteAndRelativeFileName),
    bundle ∈ bundles_signed files signed_bundles →
    ∃ file, file ∈ files ∧ is_file_from_bundle file = true
            ∧ bundle = bundle_of file.
Proof.
  induction files as [|file files IH]; intros signed bundle Hin.
  { by apply elem_of_nil in Hin. }
  cbn [bundles_signed] in Hin.
  assert (∀ signed', bundle ∈ bundles_signed files signed' →
            ∃ file0, file0 ∈ file :: files
                     ∧ is_file_from_bundle file0 = true
                     ∧ bundle = bundle_of file0) as Hrest.
  { intros signed' (file0 & ? & ? & ?)%IH. exists file0.
    split; [by right|done]. }
  destruct (is_file_from_bundle file) eqn:Hb; [|by eapply Hrest].
  case_bool_decide; [by eapply Hrest|].
  apply elem_of_cons in Hin as [->|Hin]; [|by eapply Hrest].
  exists file. split; [by left|done].
Qed.

Lemma bundles_signed_first_occurrence
    (pre : list AbsoluteAndRelativeFileName) :
  ∀ (signed_bundles : gset Path) (file : AbsoluteAndRelativeFileName)
    (post : list AbsoluteAndRelativeFileName) (first : string)
    (rest p : Path),
    relative_filepath file = first :: rest →
    Str.endswith first ".app" = true →
    [first] ∉ signed_bundles →
    (∀ other, other ∈ pre → head (relative_filepath other) ≠ Some first) →
    last p = Some first →
    List.filter (fun bundle => bool_decide (absolute_filepath bundle = p))
                (bundles_signed (pre ++ file :: post) signed_bundles)
    = if bool_decide (base_dir file ++ [first] = p)
      then [bundle_of file] else [].
Proof.
  induction pre as [|g pre IH];
    intros signed file post first rest p Hrel Happ Hnew Hpre Hlast.
  - assert (is_file_from_bundle file = true) as Hb
      by (apply is_file_from_bundle_iff; eauto).
    cbn [app bundles_signed]. rewrite Hb.
    destruct (bundle_of_from_bundle file Hb) as (s & rest' & Hrel' & _ & ->).
    rewrite Hrel in Hrel'. injection Hrel' as <- _.
    cbn [relative_filepath].
    rewrite bool_decide_eq_false_2 by done.
    cbn [List.filter absolute_filepath].
    rewrite (bundles_signed_skips post _ p first);
      [done|done|apply signed_bundles_add_in].
  - assert (head (relative_filepath g) ≠ Some first) as Hg
      by (apply Hpre; by left).
    assert (∀ other, other ∈ pre →
              head (relative_filepath other) ≠ Some first) as Hpre'
      by (intros other Ho; apply Hpre; by right).
    cbn [app bundles_signed].
    destruct (is_file_from_bundle g) eqn:Hb; [|by eapply IH].
    destruct (bundle_of_from_bundle g Hb) as (s & grest & Hgrel & _ & ->).
    rewrite Hgrel in Hg. cbn [relative_filepath].
    case_bool_decide as Hs; [by eapply IH|].
    cbn [List.filter absolute_filepath].
    rewrite bool_decide_eq_false_2.
    + eapply IH; try done.
      apply signed_bundles_add_other; [done|].
      intros [= ->]. by destruct Hg.
    + intros <-. rewrite last_snoc in Hlast.
      injection Hlast as ->. by destruct Hg.
Qed.

Lemma string_length_app (s1 s2 : string) :
  String.length (s1 ++ s2) = (String.length s1 + String.length s2)%nat.
Proof. induction s1 as [|a s1 IH]; simpl; [done|by rewrite IH]. Qed.

(** ** The signer *)

Section Signer.

Context {World : Type}.
Variable exec : Command → World → World * Z.
Variable config : Config.

(** C2: [codesign_file] invokes one command, whose entitlements
    argument holds the configured path between two double-quote
    characters; the command therefore differs from the one of the
    spec, whose entitlements argument is the bare path. *)
Theorem codesign_file_quotes_entitlements
    (file : AbsoluteAndRelativeFileName) (st : State World) :
  runs (codesign_file World exec config file) st ()
       [Info "Codesigning  %s..." [LPath (relative_filepath file)];
        Invocation
          [AStr "codesign"; AStr "--timestamp";
           AStr "--options"; AStr "runtime";
           AStr ("--entitlements=" ++ DQUOTE
                   ++ MACOS_ENTITLEMENTS_FILE config ++ DQUOTE);
           AStr "--sign"; AStr (MACOS_CODESIGN_IDENTITY config);
           APath (absolute_filepath file)]
          MACOS]
  ∧ sign_command config (absolute_filepath file)
    ≠ sign_command_of_spec config (absolute_filepath file).
Proof.
  split; [apply runs_codesign_file|].
  unfold sign_command, sign_command_of_spec. intros [= H].
  apply (f_equal String.length) in H.
  rewrite !string_length_app in H. simpl in H. lia.
Qed.

(** C6: the commands of [sign_all_files] are, for each eligible file
    in turn and then for each bundle signed, the remove-signature
    command followed at once by the sign command of the same path; the
    bundles signed are those of the bundle pass, the bundle of the first
    file of each bundle name among them; so every sign command has the
    remove-signature command of its path right before it, and every
    remove-signature command has the sign command of its path right
    after it, whatever the world is. *)
Theorem remove_signature_right_before_sign
    (files : list AbsoluteAndRelativeFileName) (st : State World) :
  Forall wf_file files →
  ∃ trace bundles,
    runs (sign_all_files World exec config files) st () trace
    ∧ commands trace
      = flat_map (sign_one_commands config)
          (map absolute_filepath
             (List.filter check_file_is_to_be_signed files) ++ bundles)
    ∧ bundles = map absolute_filepath (bundles_signed files ∅)
    ∧ (∀ p, p ∈ bundles →
            ∃ file, file ∈ files ∧ is_file_from_bundle file = true
                    ∧ p = base_dir file
                            ++ take 1 (relative_filepath file))
    ∧ (∀ pre file post first rest,
         files = pre ++ file :: post →
         relative_filepath file = first :: rest →
         Str.endswith first ".app" = true →
         (∀ other, other ∈ pre →
                   head (relative_filepath other) ≠ Some first) →
         base_dir file ++ [first] ∈ bundles
         ∧ ∃ before after,
             commands trace
             = before
                 ++ remove_command (base_dir file ++ [first])
                 :: sign_command config (base_dir file ++ [first])
                 :: after)
    ∧ (∀ file, file ∈ files → check_file_is_to_be_signed file = true →
               ∃ before after,
                 commands trace
                 = before
                     ++ remove_command (absolute_filepath file)
                     :: sign_command config (absolute_filepath file)
                     :: after)
    ∧ (∀ before after p,
         commands trace = before ++ sign_command config p :: after →
         ∃ before', before = before' ++ [remove_command p])
    ∧ (∀ before after p,
         commands trace = before ++ remove_command p :: after →
         ∃ after', after = sign_command config p :: after').
Proof.
  intros Hwf.
  exists (codesign_all_files_events config files
            ++ codesign_bundles_events config files),
         (map absolute_filepath (bundles_signed files ∅)).
  assert (commands (codesign_all_files_events config files
                      ++ codesign_bundles_events config files)
          = flat_map (sign_one_commands config)
              (map absolute_filepath
                 (List.filter check_file_is_to_be_signed files)
               ++ map absolute_filepath (bundles_signed files ∅))) as Hc.
  { by rewrite commands_app, commands_codesign_all_files_events,
      commands_codesign_bundles_events, flat_map_app. }
  assert (∀ (artifacts : list Path) p,
            p ∈ artifacts →
            ∃ before after,
              flat_map (sign_one_commands config) artifacts
              = before ++ remove_command p :: sign_command config p
                  :: after) as Hpair.
  { intros artifacts p (l1 & l2 & ->)%list_elem_of_split.
    exists (flat_map (sign_one_commands config) l1),
           (flat_map (sign_one_commands config) l2).
    by rewrite flat_map_app. }
  split; [by apply runs_sign_all_files|]. split; [exact Hc|].
  split; [done|].
  rewrite Hc. split; [|split; [|split; [|split]]].
  - intros p (bundle & -> & Hin)%list_elem_of_fmap.
    apply bundles_signed_origin in Hin as (file & ? & ? & ->).
    by exists file.
  - intros pre file post first rest -> Hrel Happ Hpre.
    assert (base_dir file ++ [first]
              ∈ map absolute_filepath
                  (bundles_signed (pre ++ file :: post) ∅)) as Hin.
    { pose proof (bundles_signed_first_occurrence pre ∅ file post first
                    rest (base_dir file ++ [first]) Hrel Happ
                    (not_elem_of_empty _) Hpre (last_snoc _ _)) as Hfilter.
      rewrite bool_decide_eq_true_2 in Hfilter by done.
      assert (In (bundle_of file)
                (List.filter
                   (fun bundle =>
                      bool_decide (absolute_filepath bundle
                                     = base_dir file ++ [first]))
                   (bundles_signed (pre ++ file :: post) ∅))) as Hb
        by (rewrite Hfilter; by left).
      apply List.filter_In in Hb as [Hb Habs].
      apply bool_decide_eq_true in Habs.
      apply list_elem_of_fmap. exists (bundle_of file).
      split; [done|]. by apply list_elem_of_In. }
    split; [exact Hin|].
    apply Hpair. apply elem_of_app. by right.
  - intros file Hin Hcheck. apply Hpair. apply elem_of_app. left.
    apply list_elem_of_fmap. exists file. split; [done|].
    apply list_elem_of_In, List.filter_In. split; [|done].
    by apply list_elem_of_In.
  - apply sign_follows_remove.
  - apply remove_precedes_sign.
Qed.

(** C8: the per-file pass returns true on every list and in every
    world, and so does the bundle pass after it; [sign_all_files] is
    the per-file pass followed by the bundle pass, neither of its two
    early returns being taken. *)
Theorem passes_return_true
    (files : list AbsoluteAndRelativeFileName) (st : State World) :
  (∃ st1, codesign_all_files World exec config files st = (Ok true, st1))
  ∧ (Forall wf_file files →
     ∃ st1 st2,
       codesign_all_files World exec config files st = (Ok true, st1)
       ∧ codesign_bundles World exec config files st1 = (Ok true, st2)
       ∧ sign_all_files World exec config files st = (Ok (), st2)).
Proof.
  destruct (runs_codesign_all_files exec config files st)
    as (st1 & H1 & _).
  split; [by exists st1|]. intros Hwf.
  destruct (runs_codesign_bundles exec config files st1 Hwf)
    as (st2 & H2 & _).
  exists st1, st2. split; [done|]. split; [done|].
  unfold sign_all_files, mbind, M_bind. rewrite H1. cbn [negb].
  by rewrite H2.
Qed.

(** C10: on the empty list [sign_all_files] and its two passes leave
    the state as it is and add nothing to the trace: nothing is
    invoked and nothing is logged, the summary of the signed files
    included. *)
Theorem sign_all_files_nil (st : State World) :
  sign_all_files World exec config [] st = (Ok (), st)
  ∧ codesign_all_files World exec config [] st = (Ok true, st)
  ∧ codesign_bundles World exec config [] st = (Ok true, st)
  ∧ runs (sign_all_files World exec config []) st () []
  ∧ runs (codesign_all_files World exec config []) st true []
  ∧ runs (codesign_bundles World exec config []) st true []
  ∧ commands (codesign_all_files_events config []
                ++ codesign_bundles_events config []) = []
  ∧ records "Signed %d files:" (codesign_all_files_events config []) = [].
Proof.
  repeat split; try done; exists st; by rewrite app_nil_r.
Qed.

(** C3, amended: the bundle pass signs no path more than once, and it
    signs exactly once the bundle of a file of the list, whichever of
    the bundle's files comes first, when every file of the list whose
    relative path starts with the bundle's name has the bundle's base
    directory. *)
Theorem codesign_bundles_signs_bundle_once
    (files : list AbsoluteAndRelativeFileName) (st : State World) :
  Forall wf_file files →
  ∃ trace,
    runs (codesign_bundles World exec config files) st true trace
    ∧ (∀ p, (sign_count config p trace ≤ 1)%nat)
    ∧ (∀ file first rest,
         file ∈ files →
         relative_filepath file = first :: rest →
         Str.endswith first ".app" = true →
         (∀ other rest', other ∈ files →
                         relative_filepath other = first :: rest' →
                         base_dir other = base_dir file) →
         sign_count config (base_dir file ++ [first]) trace = 1%nat).
Proof.
  intros Hwf. exists (codesign_bundles_events config files).
  split; [by apply runs_codesign_bundles|].
  assert (∀ p, sign_count config p (codesign_bundles_events config files)
               = length (List.filter
                   (fun bundle =>
                      bool_decide (absolute_filepath bundle = p))
                   (bundles_signed files ∅))) as Hcount.
  { intros p. unfold sign_count.
    rewrite commands_codesign_bundles_events, sign_count_pairs.
    induction (bundles_signed files ∅) as [|bundle bundles IH]; [done|].
    cbn [map List.filter]. by destruct (bool_decide _); simpl; rewrite IH. }
  split.
  - intros p. rewrite Hcount. apply bundles_signed_at_most_once.
  - intros file first rest Hin Hrel Happ Hbase. rewrite Hcount.
    by eapply bundles_signed_once.
Qed.

(** C7: on the four files of the scenario below /out the per-file pass
    removes the signature of and signs the first three files, one after
    the other (a bundle executable and two files with the extension
    .dylib), logs that it ignores readme.txt, the fourth of four, and
    reports three signed files; the bundle pass then removes the
    signature of and signs /out/Foo.app, once. *)
Theorem sign_all_files_scenario (st : State World) :
  map is_bundle_executable_file Examples.scenario
    = [true; false; false; false]
  ∧ map (fun file => PurePath.suffix (relative_filepath file))
        Examples.scenario = [""; ".dylib"; ".dylib"; ".txt"]
  ∧ map check_file_is_to_be_signed Examples.scenario
    = [true; true; true; false]
  ∧ ∃ trace1 trace2,
      runs (codesign_all_files World exec config Examples.scenario)
           st true trace1
      ∧ (∀ st1, runs (codesign_bundles World exec config
                        Examples.scenario) st1 true trace2)
      ∧ runs (sign_all_files World exec config Examples.scenario)
             st () (trace1 ++ trace2)
      ∧ commands trace1
        = [remove_command ["/"; "out"; "Foo.app"; "Contents"; "MacOS"; "Foo"];
           sign_command config
             ["/"; "out"; "Foo.app"; "Contents"; "MacOS"; "Foo"];
           remove_command
             ["/"; "out"; "Foo.app"; "Contents"; "Resources"; "lib.dylib"];
           sign_command config
             ["/"; "out"; "Foo.app"; "Contents"; "Resources"; "lib.dylib"];
           remove_command ["/"; "out"; "standalone.dylib"];
           sign_command config ["/"; "out"; "standalone.dylib"]]
      ∧ records "Ignoring file [%d/%d] %s" trace1
        = [Info "Ignoring file [%d/%d] %s"
                [LInt 4; LInt 4; LPath ["readme.txt"]]]
      ∧ records "Signed %d files:" trace1
        = [Info "Signed %d files:" [LInt 3]]
      ∧ commands trace2
        = [remove_command ["/"; "out"; "Foo.app"];
           sign_command config ["/"; "out"; "Foo.app"]].
Proof.
  assert (Forall wf_file Examples.scenario) as Hwf
    by (repeat constructor).
  split; [by vm_compute|]. split; [by vm_compute|].
  split; [by vm_compute|].
  exists (codesign_all_files_events config Examples.scenario),
         (codesign_bundles_events config Examples.scenario).
  split; [apply runs_codesign_all_files|].
  split; [intros st1; by apply runs_codesign_bundles|].
  split; [by apply runs_sign_all_files|].
  repeat split; by vm_compute.
Qed.

End Signer.

(** ** The theorems at concrete inputs *)

Lemma remove_signature_right_before_sign_witness :
  Forall wf_file Examples.scenario
  ∧ ∃ trace,
      runs (sign_all_files unit Examples.exec_ok Examples.config
              Examples.scenario) Examples.start () trace
      ∧ (∃ before after,
           commands trace
           = before
               ++ remove_command ["/"; "out"; "Foo.app"]
               :: sign_command Examples.config ["/"; "out"; "Foo.app"]
               :: after)
      ∧ (∀ before after p,
           commands trace
             = before ++ sign_command Examples.config p :: after →
           ∃ before', before = before' ++ [remove_command p])
      ∧ (∀ before after p,
           commands trace = before ++ remove_command p :: after →
           ∃ after', after = sign_command Examples.config p :: after').
Proof.
  split; [repeat constructor|].
  destruct (remove_signature_right_before_sign Examples.exec_ok
              Examples.config Examples.scenario Examples.start)
    as (trace & bundles & Hruns & _ & _ & _ & Hfirst & _ & Hsign & Hremove);
    [repeat constructor|].
  exists trace. split; [exact Hruns|]. split; [|split; assumption].
  apply (Hfirst [] (Examples.file_in Examples.out
                      ["Foo.app"; "Contents"; "MacOS"; "Foo"])
                [Examples.file_in Examples.out
                   ["Foo.app"; "Contents"; "Resources"; "lib.dylib"];
                 Examples.file_in Examples.out ["standalone.dylib"];
                 Examples.file_in Examples.out ["readme.txt"]]
                "Foo.app" ["Contents"; "MacOS"; "Foo"]).
  - reflexivity.
  - reflexivity.
  - reflexivity.
  - intros other Hin. by apply elem_of_nil in Hin.
Defined.

Lemma passes_return_true_witness :
  Forall wf_file Examples.scenario
  ∧ ∃ st1 st2,
      codesign_all_files unit Examples.exec_ok Examples.config
        Examples.scenario Examples.start = (Ok true, st1)
      ∧ codesign_bundles unit Examples.exec_ok Examples.config
          Examples.scenario st1 = (Ok true, st2)
      ∧ sign_all_files unit Examples.exec_ok Examples.config
          Examples.scenario Examples.start = (Ok (), st2).
Proof.
  split; [repeat constructor|].
  apply (proj2 (passes_return_true Examples.exec_ok Examples.config
                  Examples.scenario Examples.start)).
  repeat constructor.
Defined.

Lemma codesign_bundles_signs_bundle_once_witness :
  Forall wf_file Examples.scenario
  ∧ ∃ trace,
      runs (codesign_bundles unit Examples.exec_ok Examples.config
              Examples.scenario) Examples.start true trace
      ∧ sign_count Examples.config ["/"; "out"; "Foo.app"] trace = 1%nat.
Proof.
  split; [repeat constructor|].
  destruct (codesign_bundles_signs_bundle_once Examples.exec_ok
              Examples.config Examples.scenario Examples.start)
    as (trace & Hruns & _ & Honce); [repeat constructor|].
  exists trace. split; [exact Hruns|].
  apply (Honce (Examples.file_in Examples.out
                  ["Foo.app"; "Contents"; "MacOS"; "Foo"])
               "Foo.app" ["Contents"; "MacOS"; "Foo"]).
  - left.
  - reflexivity.
  - reflexivity.
  - intros other rest' Hin _.
    repeat (apply elem_of_cons in Hin as [->|Hin]; [reflexivity|]).
    by apply elem_of_nil in Hin.
Defined.

(** C3 as stated fails: of two build trees holding a bundle X.app each,
    the list has two files of the second tree's bundle after a file of
    the first tree's; the bundle pass signs /a/X.app once and /b/X.app
    not at all. *)
Lemma codesign_bundles_second_tree_unsigned :
  let result := codesign_bundles unit Examples.exec_ok Examples.config
                  Examples.two_trees Examples.start in
  Forall wf_file Examples.two_trees
  ∧ map base_dir Examples.two_trees
    = [Examples.tree_a; Examples.tree_b; Examples.tree_b]
  ∧ map (fun file => head (relative_filepath file)) Examples.two_trees
    = [Some "X.app"; Some "X.app"; Some "X.app"]
  ∧ map is_file_from_bundle Examples.two_trees = [true; true; true]
  ∧ result.1 = Ok true
  ∧ sign_count Examples.config ["/"; "a"; "X.app"] (events result.2) = 1%nat
  ∧ sign_count Examples.config ["/"; "b"; "X.app"] (events result.2) = 0%nat
  ∧ sign_count Examples.config ["/"; "b"; "X.app"] (events result.2) ≠ 1%nat.
Proof.
  split; [repeat constructor|]. by vm_compute.
Qed.

(** ** Names and extensions *)

Lemma substring_0_length (s : string) :
  String.substring 0 (String.length s) s = s.
Proof. induction s as [|a s IH]; simpl; [done|by rewrite IH]. Qed.

Lemma substring_app_r (s1 s2 : string) :
  String.substring (String.length s1) (String.length s2)
                   (s1 ++ s2)%string = s2.
Proof.
  induction s1 as [|a s1 IH]; simpl; [apply substring_0_length|done].
Qed.

Lemma substring_split (s : string) :
  ∀ n, (n ≤ String.length s)%nat →
       (String.substring 0 n s
          ++ String.substring n (String.length s - n) s)%string = s.
Proof.
  induction s as [|a s IH]; intros [|n] Hn; simpl in *; try done; try lia.
  - by rewrite substring_0_length.
  - transitivity
      (String a (String.substring 0 n s
                   ++ String.substring n (String.length s - n) s)%string);
      [reflexivity|].
    by rewrite IH by lia.
Qed.

Lemma length_substring_0 (s : string) :
  ∀ n, (n ≤ String.length s)%nat →
       String.length (String.substring 0 n s) = n.
Proof.
  induction s as [|a s IH]; intros [|n] Hn; simpl in *; try done; try lia.
  by rewrite IH by lia.
Qed.

Lemma rfind_from_absent (c : ascii) (s : string) :
  ∀ i, Str.contains c s = false → Str.rfind_from c s i = (-1)%Z.
Proof.
  induction s as [|a s IH]; intros i H; simpl in *; [done|].
  apply orb_false_elim in H as [Ha Hs].
  by rewrite (IH _ Hs), Ha.
Qed.

(** The last [c] of a string is found where it is. *)
Lemma rfind_from_last (c : ascii) (s1 s2 : string) :
  ∀ i, (0 ≤ i)%Z → Str.contains c s2 = false →
       Str.rfind_from c (s1 ++ String c s2)%string i = (i + Str.len s1)%Z.
Proof.
  unfold Str.len.
  induction s1 as [|a s1 IH]; intros i Hi H.
  - change (Str.rfind_from c (String c s2) i
            = (i + Z.of_nat (String.length ""))%Z).
    cbn [Str.rfind_from]. rewrite (rfind_from_absent c s2 _ H).
    rewrite Ascii.eqb_refl. simpl. lia.
  - change (Str.rfind_from c (String a (s1 ++ String c s2)%string) i
            = (i + Z.of_nat (S (String.length s1)))%Z).
    cbn [Str.rfind_from]. rewrite (IH (i + 1)%Z) by (lia || done).
    destruct (Z.leb_spec 0 (i + 1 + Z.of_nat (String.length s1))) as [_|?];
      lia.
Qed.

(** The suffix of a path is a given extension, a dot followed by
    characters other than the dot, exactly when the name of the path is
    a non-empty stem followed by the extension. *)
Lemma suffix_is_extension (p : Path) (rest : string) :
  Str.contains "."%char rest = false →
  rest ≠ "" →
  PurePath.suffix p = String "."%char rest ↔
  ∃ stem, stem ≠ ""
          ∧ PurePath.name p = (stem ++ String "."%char rest)%string.
Proof.
  intros Hdot Hrest. unfold PurePath.suffix.
  set (name := PurePath.name p). split.
  - destruct (_ && _) eqn:Hcond; [|done].
    apply andb_prop in Hcond as [Hlo Hhi].
    apply Z.ltb_lt in Hlo, Hhi. unfold Str.len in Hhi.
    unfold Str.slice_from. intros Hext.
    exists (String.substring 0 (Z.to_nat (Str.rfind name ".")) name).
    split.
    + intros Hstem. apply (f_equal String.length) in Hstem.
      rewrite length_substring_0 in Hstem by lia. simpl in Hstem. lia.
    + rewrite <- Hext. symmetry. apply substring_split. lia.
  - intros (stem & Hstem & Hname). rewrite Hname.
    unfold Str.rfind. rewrite rfind_from_last by (lia || done).
    unfold Str.len, Str.slice_from. rewrite string_length_app.
    assert (String.length stem ≠ 0%nat) as Hlen
      by (destruct stem; simpl; [done|lia]).
    assert (String.length rest ≠ 0%nat) as Hlen'
      by (destruct rest; simpl; [done|lia]).
    simpl String.length.
    destruct (Z.ltb_spec 0 (0 + Z.of_nat (String.length stem))) as [_|?];
      [|lia].
    destruct (Z.ltb_spec (0 + Z.of_nat (String.length stem))
                (Z.of_nat (String.length stem + S (String.length rest)) - 1))
      as [_|?]; [|lia].
    cbn [andb].
    replace (Z.to_nat (0 + Z.of_nat (String.length stem)))
      with (String.length stem) by lia.
    replace (String.length stem + S (String.length rest)
               - String.length stem)%nat
      with (String.length (String "."%char rest)) by (simpl; lia).
    apply substring_app_r.
Qed.

(** X9: for a file that is neither a bundle executable nor named with
    the prefix python, [check_file_is_to_be_signed] holds exactly when
    the name of the file is a non-empty stem followed by one of the
    extensions to be signed: a name that ends with an extension is
    signed unless it is the bare extension. *)
Theorem extension_rule_needs_stem (file : AbsoluteAndRelativeFileName) :
  is_bundle_executable_file file = false →
  Str.startswith (PurePath.name (relative_filepath file)) "python" = false →
  check_file_is_to_be_signed file = true ↔
  ∃ stem ext,
    stem ≠ "" ∧ ext ∈ EXTENSIONS_TO_BE_SIGNED
    ∧ PurePath.name (relative_filepath file) = (stem ++ ext)%string.
Proof.
  intros Hexe Hname.
  unfold check_file_is_to_be_signed.
  rewrite Hexe, name_prefixes_elements. cbn [existsb]. rewrite Hname.
  cbn [orb]. rewrite bool_decide_eq_true, extensions_elem_of.
  rewrite !suffix_is_extension by done.
  split.
  - intros [(stem & ? & ?)|[(stem & ? & ?)|(stem & ? & ?)]];
      eexists stem, _; (split; [done|]); (split; [|done]);
      apply extensions_elem_of; auto.
  - intros (stem & ext & Hstem & Hext & Heq).
    apply extensions_elem_of in Hext as [->|[->| ->]];
      [left|right; left|right; right]; by exists stem.
Qed.

Lemma extension_rule_needs_stem_witness :
  is_bundle_executable_file (Examples.file_in Examples.out ["lib.so"]) = false
  ∧ Str.startswith
      (PurePath.name
         (relative_filepath (Examples.file_in Examples.out ["lib.so"])))
      "python" = false
  ∧ (check_file_is_to_be_signed
       (Examples.file_in Examples.out ["lib.so"]) = true ↔
     ∃ stem ext,
       stem ≠ "" ∧ ext ∈ EXTENSIONS_TO_BE_SIGNED
       ∧ PurePath.name
           (relative_filepath (Examples.file_in Examples.out ["lib.so"]))
         = (stem ++ ext)%string).
Proof.
  split; [reflexivity|]. split; [reflexivity|].
  apply (extension_rule_needs_stem
           (Examples.file_in Examples.out ["lib.so"])); reflexivity.
Defined.

(** ** Bundles as descriptors *)

Lemma bundle_of_wf (file : AbsoluteAndRelativeFileName) :
  wf_file file → is_file_from_bundle file = true →
  wf_file (bundle_of file).
Proof.
  intros Hwf Hb.
  destruct (bundle_of_from_bundle file Hb) as (s & rest & Hrel & Happ & ->).
  unfold wf_file in *. rewrite Hrel in Hwf. cbn [relative_filepath].
  simpl. rewrite (bundle_name_is_name s rest Hwf Happ).
  by rewrite orb_true_r.
Qed.

(** X7: the descriptor that [get_bundle_from_file] returns for a file of
    a bundle is a file of that bundle itself, though never a bundle
    executable; its absolute path is its base directory followed by its
    relative path, and [get_bundle_from_file] maps it to itself. *)
Theorem get_bundle_from_file_idempotent
    (file : AbsoluteAndRelativeFileName) :
  wf_file file →
  is_file_from_bundle file = true →
  ∃ bundle,
    get_bundle_from_file file = Ok bundle
    ∧ absolute_filepath bundle = base_dir bundle ++ relative_filepath bundle
    ∧ wf_file bundle
    ∧ is_file_from_bundle bundle = true
    ∧ is_bundle_executable_file bundle = false
    ∧ get_bundle_from_file bundle = Ok bundle.
Proof.
  intros Hwf Hb. exists (bundle_of file).
  pose proof (bundle_of_wf file Hwf Hb) as Hwf'.
  destruct (bundle_of_from_bundle file Hb) as (s & rest & Hrel & Happ & Heq).
  assert (is_file_from_bundle (bundle_of file) = true) as Hb'.
  { rewrite Heq. unfold is_file_from_bundle. cbn [relative_filepath].
    by rewrite Happ. }
  split; [by apply get_bundle_from_file_ok|].
  split; [by rewrite Heq|]. split; [done|]. split; [done|]. split.
  - unfold is_bundle_executable_file. rewrite Hb', Heq. done.
  - rewrite (get_bundle_from_file_ok _ Hwf' Hb'). by rewrite Heq.
Qed.

Lemma get_bundle_from_file_idempotent_witness :
  wf_file Examples.app_executable
  ∧ is_file_from_bundle Examples.app_executable = true
  ∧ ∃ bundle,
      get_bundle_from_file Examples.app_executable = Ok bundle
      ∧ absolute_filepath bundle
        = base_dir bundle ++ relative_filepath bundle
      ∧ wf_file bundle
      ∧ is_file_from_bundle bundle = true
      ∧ is_bundle_executable_file bundle = false
      ∧ get_bundle_from_file bundle = Ok bundle.
Proof.
  split; [reflexivity|]. split; [reflexivity|].
  apply (get_bundle_from_file_idempotent Examples.app_executable);
    reflexivity.
Defined.

(** X8: two files of bundles get the same descriptor from
    [get_bundle_from_file] exactly when they have the same base directory
    and the same first part of the relative path; the rest of the
    relative path and the absolute path of the files do not matter. *)
Theorem get_bundle_from_file_same_bundle
    (file other : AbsoluteAndRelativeFileName) :
  wf_file file → wf_file other →
  is_file_from_bundle file = true → is_file_from_bundle other = true →
  get_bundle_from_file file = get_bundle_from_file other ↔
  base_dir file = base_dir other
  ∧ head (relative_filepath file) = head (relative_filepath other).
Proof.
  intros Hwf Hwf' Hb Hb'.
  rewrite (get_bundle_from_file_ok file Hwf Hb),
    (get_bundle_from_file_ok other Hwf' Hb').
  destruct (bundle_of_from_bundle file Hb) as (s & rest & -> & _ & ->).
  destruct (bundle_of_from_bundle other Hb') as (s' & rest' & -> & _ & ->).
  simpl. split.
  - by intros [= -> _ ->].
  - by intros [-> [= ->]].
Qed.

Lemma get_bundle_from_file_same_bundle_witness :
  wf_file Examples.app_executable
  ∧ wf_file (Examples.file_in Examples.out ["App.app"; "Contents"; "Info.plist"])
  ∧ is_file_from_bundle Examples.app_executable = true
  ∧ is_file_from_bundle
      (Examples.file_in Examples.out ["App.app"; "Contents"; "Info.plist"])
    = true
  ∧ get_bundle_from_file Examples.app_executable
    = get_bundle_from_file
        (Examples.file_in Examples.out ["App.app"; "Contents"; "Info.plist"]).
Proof.
  split; [reflexivity|]. split; [reflexivity|].
  split; [reflexivity|]. split; [reflexivity|].
  apply (get_bundle_from_file_same_bundle Examples.app_executable
           (Examples.file_in Examples.out
              ["App.app"; "Contents"; "Info.plist"])); try reflexivity.
  split; reflexivity.
Defined.

(** ** The log and the counts of the per-file pass *)

Section PerFilePass.

Context {World : Type}.
Variable exec : Command → World → World * Z.
Variable config : Config.

Lemma records_app (msg : string) (t1 t2 : list Event) :
  records msg (t1 ++ t2) = records msg t1 ++ records msg t2.
Proof. apply List.filter_app. Qed.

Lemma records_summary_per_file_events (num_files : Z)
    (indexed : list (Z * AbsoluteAndRelativeFileName)) :
  records "Signed %d files:" (per_file_events config num_files indexed) = []
  ∧ records "- [%d/%d] %s" (per_file_events config num_files indexed) = [].
Proof.
  induction indexed as [|[i file] indexed [IH1 IH2]]; [done|].
  cbn [per_file_events]. rewrite !records_app, IH1, IH2.
  by destruct (check_file_is_to_be_signed file).
Qed.

Lemma records_summary_events
    (signed_files : list AbsoluteAndRelativeFileName) :
  records "Signed %d files:" (summary_events signed_files)
    = [Info "Signed %d files:" [LInt (len signed_files)]]
  ∧ records "- [%d/%d] %s" (summary_events signed_files)
    = map (fun '(file_index, signed_file) =>
             Info "- [%d/%d] %s"
                  [LInt (file_index + 1); LInt (len signed_files);
                   LPath (relative_filepath signed_file)])
          (enumerate signed_files).
Proof.
  unfold summary_events.
  generalize (len signed_files) as n. intros n.
  induction (enumerate signed_files) as [|[i file] indexed [IH1 IH2]];
    [done|].
  split.
  - cbn [map records List.filter String.eqb] in *. exact IH1.
  - cbn [map]. unfold records in *. cbn [List.filter] in *.
    simpl String.eqb in *. by rewrite IH2.
Qed.

(** X1: what the per-file pass logs ends with the summary of the
    signed files exactly when it has ignored some file: nothing before
    the summary is a record of the summary, and the summary is the
    record with the number of eligible files, none included, followed by
    one record for each of them in the order of the input, with their
    positions from 1. When every file is eligible nothing is summed up,
    however many files were signed. *)
Theorem codesign_all_files_summary
    (files : list AbsoluteAndRelativeFileName) (st : State World) :
  ∃ progress summary,
    runs (codesign_all_files World exec config files) st true
         (progress ++ summary)
    ∧ records "Signed %d files:" progress = []
    ∧ records "- [%d/%d] %s" progress = []
    ∧ (forallb check_file_is_to_be_signed files = true →
       summary = []
       ∧ records "Signed %d files:" (progress ++ summary) = []
       ∧ records "- [%d/%d] %s" (progress ++ summary) = [])
    ∧ (forallb check_file_is_to_be_signed files = false →
       let signed_files := List.filter check_file_is_to_be_signed files in
       summary
         = Info "Signed %d files:" [LInt (len signed_files)]
             :: map (fun '(file_index, signed_file) =>
                       Info "- [%d/%d] %s"
                            [LInt (file_index + 1); LInt (len signed_files);
                             LPath (relative_filepath signed_file)])
                    (enumerate signed_files)
       ∧ records "Signed %d files:" (progress ++ summary)
         = [Info "Signed %d files:" [LInt (len signed_files)]]
       ∧ records "- [%d/%d] %s" (progress ++ summary)
         = map (fun '(file_index, signed_file) =>
                  Info "- [%d/%d] %s"
                       [LInt (file_index + 1); LInt (len signed_files);
                        LPath (relative_filepath signed_file)])
               (enumerate signed_files)).
Proof.
  exists (per_file_events config (len files) (enumerate files)),
         (if forallb check_file_is_to_be_signed files then []
          else summary_events
                 (List.filter check_file_is_to_be_signed files)).
  split; [apply runs_codesign_all_files|].
  rewrite !records_app.
  destruct (records_summary_per_file_events (len files) (enumerate files))
    as [-> ->].
  split; [done|]. split; [done|].
  split; intros ->; [done|].
  cbn zeta. split; [done|]. apply records_summary_events.
Qed.

Lemma records_progress_per_file_events (num_files : Z)
    (indexed : list (Z * AbsoluteAndRelativeFileName)) :
  records "Ignoring file [%d/%d] %s"
          (per_file_events config num_files indexed)
    = map (fun item : Z * AbsoluteAndRelativeFileName =>
             Info "Ignoring file [%d/%d] %s"
                  [LInt (item.1 + 1); LInt num_files;
                   LPath (relative_filepath item.2)])
          (List.filter
             (fun item : Z * AbsoluteAndRelativeFileName =>
                negb (check_file_is_to_be_signed item.2)) indexed)
  ∧ records "Running codesigning routines for file [%d/%d] %s..."
            (per_file_events config num_files indexed)
    = map (fun item : Z * AbsoluteAndRelativeFileName =>
             Info "Running codesigning routines for file [%d/%d] %s..."
                  [LInt (item.1 + 1); LInt num_files;
                   LPath (relative_filepath item.2)])
          (List.filter
             (fun item : Z * AbsoluteAndRelativeFileName =>
                check_file_is_to_be_signed item.2) indexed).
Proof.
  induction indexed as [|[i file] indexed [IH1 IH2]]; [done|].
  cbn [per_file_events List.filter snd fst]. rewrite !records_app, IH1, IH2.
  by destruct (check_file_is_to_be_signed file).
Qed.

Lemma records_progress_summary_events
    (signed_files : list AbsoluteAndRelativeFileName) :
  records "Ignoring file [%d/%d] %s" (summary_events signed_files) = []
  ∧ records "Running codesigning routines for file [%d/%d] %s..."
            (summary_events signed_files) = [].
Proof.
  unfold summary_events.
  generalize (len signed_files) as n. intros n.
  induction (enumerate signed_files) as [|[i file] indexed [IH1 IH2]];
    done.
Qed.

(** X2: the per-file pass does not look for duplicates: it signs a path
    as many times as the list holds eligible files with that absolute
    path, and a path of no eligible file never. *)
Theorem codesign_all_files_signs_each_listing
    (files : list AbsoluteAndRelativeFileName) (st : State World) :
  ∃ trace,
    runs (codesign_all_files World exec config files) st true trace
    ∧ ∀ p,
        sign_count config p trace
        = length (List.filter
                    (fun file => check_file_is_to_be_signed file
                                 && bool_decide (absolute_filepath file = p))
                    files).
Proof.
  exists (codesign_all_files_events config files).
  split; [apply runs_codesign_all_files|].
  intros p. unfold sign_count.
  rewrite commands_codesign_all_files_events, sign_count_pairs.
  induction files as [|file files IH]; [done|].
  cbn [List.filter].
  destruct (check_file_is_to_be_signed file); cbn [andb map List.filter];
    [|exact IH].
  destruct (bool_decide (absolute_filepath file = p)); simpl; by rewrite IH.
Qed.

Lemma progress_records_per_file_events (num_files : Z)
    (indexed : list (Z * AbsoluteAndRelativeFileName)) :
  List.filter is_progress_record (per_file_events config num_files indexed)
  = map (fun item : Z * AbsoluteAndRelativeFileName =>
           if check_file_is_to_be_signed item.2
           then Info "Running codesigning routines for file [%d/%d] %s..."
                     [LInt (item.1 + 1); LInt num_files;
                      LPath (relative_filepath item.2)]
           else Info "Ignoring file [%d/%d] %s"
                     [LInt (item.1 + 1); LInt num_files;
                      LPath (relative_filepath item.2)])
        indexed.
Proof.
  induction indexed as [|[i file] indexed IH]; [done|].
  cbn [per_file_events map snd fst]. rewrite List.filter_app, IH.
  by destruct (check_file_is_to_be_signed file).
Qed.

Lemma progress_records_summary_events
    (signed_files : list AbsoluteAndRelativeFileName) :
  List.filter is_progress_record (summary_events signed_files) = [].
Proof.
  unfold summary_events.
  generalize (len signed_files) as n. intros n.
  induction (enumerate signed_files) as [|[i file] indexed IH]; done.
Qed.

(** X3: the per-file pass logs one record for each file of the list, in
    the order of the list: that it ignores the file when the file is not
    eligible, that it runs the signing routines on it when it is; the
    record gives the position of the file in the list, from 1, and the
    length of the list. *)
Theorem codesign_all_files_progress
    (files : list AbsoluteAndRelativeFileName) (st : State World) :
  ∃ trace,
    runs (codesign_all_files World exec config files) st true trace
    ∧ List.filter is_progress_record trace
      = map (fun item : Z * AbsoluteAndRelativeFileName =>
               if check_file_is_to_be_signed item.2
               then Info
                      "Running codesigning routines for file [%d/%d] %s..."
                      [LInt (item.1 + 1); LInt (len files);
                       LPath (relative_filepath item.2)]
               else Info "Ignoring file [%d/%d] %s"
                         [LInt (item.1 + 1); LInt (len files);
                          LPath (relative_filepath item.2)])
            (enumerate files)
    ∧ records "Ignoring file [%d/%d] %s" trace
      = map (fun item : Z * AbsoluteAndRelativeFileName =>
               Info "Ignoring file [%d/%d] %s"
                    [LInt (item.1 + 1); LInt (len files);
                     LPath (relative_filepath item.2)])
            (List.filter
               (fun item : Z * AbsoluteAndRelativeFileName =>
                  negb (check_file_is_to_be_signed item.2))
               (enumerate files))
    ∧ records "Running codesigning routines for file [%d/%d] %s..." trace
      = map (fun item : Z * AbsoluteAndRelativeFileName =>
               Info "Running codesigning routines for file [%d/%d] %s..."
                    [LInt (item.1 + 1); LInt (len files);
                     LPath (relative_filepath item.2)])
            (List.filter
               (fun item : Z * AbsoluteAndRelativeFileName =>
                  check_file_is_to_be_signed item.2)
               (enumerate files)).
Proof.
  exists (codesign_all_files_events config files).
  split; [apply runs_codesign_all_files|].
  unfold codesign_all_files_events.
  rewrite List.filter_app, !records_app,
    progress_records_per_file_events.
  destruct (records_progress_per_file_events (len files) (enumerate files))
    as [-> ->].
  destruct (forallb check_file_is_to_be_signed files).
  - by rewrite !app_nil_r.
  - rewrite progress_records_summary_events.
    destruct (records_progress_summary_events
                (List.filter check_file_is_to_be_signed files)) as [-> ->].
    by rewrite !app_nil_r.
Qed.

End PerFilePass.

Lemma codesign_all_files_summary_witness :
  (forallb check_file_is_to_be_signed Examples.scenario = false
   ∧ ∃ progress summary,
       runs (codesign_all_files unit Examples.exec_ok Examples.config
               Examples.scenario) Examples.start true (progress ++ summary)
       ∧ summary
         = [Info "Signed %d files:" [LInt 3];
            Info "- [%d/%d] %s"
                 [LInt 1; LInt 3;
                  LPath ["Foo.app"; "Contents"; "MacOS"; "Foo"]];
            Info "- [%d/%d] %s"
                 [LInt 2; LInt 3;
                  LPath ["Foo.app"; "Contents"; "Resources"; "lib.dylib"]];
            Info "- [%d/%d] %s"
                 [LInt 3; LInt 3; LPath ["standalone.dylib"]]])
  ∧ (forallb check_file_is_to_be_signed
       [Examples.file_in Examples.out ["lib.so"]] = true
     ∧ ∃ progress summary,
         runs (codesign_all_files unit Examples.exec_ok Examples.config
                 [Examples.file_in Examples.out ["lib.so"]])
              Examples.start true (progress ++ summary)
         ∧ summary = []).
Proof.
  split; (split; [reflexivity|]).
  - destruct (codesign_all_files_summary Examples.exec_ok Examples.config
                Examples.scenario Examples.start)
      as (progress & summary & Hruns & _ & _ & _ & Hsome).
    exists progress, summary. split; [exact Hruns|].
    apply (Hsome eq_refl).
  - destruct (codesign_all_files_summary Examples.exec_ok Examples.config
                [Examples.file_in Examples.out ["lib.so"]] Examples.start)
      as (progress & summary & Hruns & _ & _ & Hall & _).
    exists progress, summary. split; [exact Hruns|].
    apply (Hall eq_refl).
Defined.

(** ** Which bundles the bundle pass signs, how many, and when *)

Section BundlePass.

Context {World : Type}.
Variable exec : Command → World → World * Z.
Variable config : Config.

Lemma sign_count_codesign_bundles_events
    (files : list AbsoluteAndRelativeFileName) (p : Path) :
  sign_count config p (codesign_bundles_events config files)
  = length (List.filter
              (fun bundle => bool_decide (absolute_filepath bundle = p))
              (bundles_signed files ∅)).
Proof.
  unfold sign_count.
  rewrite commands_codesign_bundles_events, sign_count_pairs.
  induction (bundles_signed files ∅) as [|bundle bundles IH]; [done|].
  cbn [map List.filter]. by destruct (bool_decide _); simpl; rewrite IH.
Qed.

(** X4: of the files of the list whose relative paths start with the
    same bundle name, the first decides which bundle is signed: the
    bundle pass signs the bundle of that name in the base directory of
    the first such file once, eligible or not, and a bundle of that name
    in any other base directory never. *)
Theorem codesign_bundles_first_file_decides
    (pre post : list AbsoluteAndRelativeFileName)
    (file : AbsoluteAndRelativeFileName) (first : string) (rest : Path)
    (st : State World) :
  Forall wf_file (pre ++ file :: post) →
  relative_filepath file = first :: rest →
  Str.endswith first ".app" = true →
  (∀ other, other ∈ pre → head (relative_filepath other) ≠ Some first) →
  ∃ trace,
    runs (codesign_bundles World exec config (pre ++ file :: post))
         st true trace
    ∧ sign_count config (base_dir file ++ [first]) trace = 1%nat
    ∧ ∀ base, base ≠ base_dir file →
              sign_count config (base ++ [first]) trace = 0%nat.
Proof.
  intros Hwf Hrel Happ Hpre.
  exists (codesign_bundles_events config (pre ++ file :: post)).
  split; [by apply runs_codesign_bundles|].
  split; [|intros base Hbase]; rewrite sign_count_codesign_bundles_events.
  - rewrite (bundles_signed_first_occurrence pre ∅ file post first rest);
      [|done|done|apply not_elem_of_empty|done|apply last_snoc].
    by rewrite bool_decide_eq_true_2.
  - rewrite (bundles_signed_first_occurrence pre ∅ file post first rest);
      [|done|done|apply not_elem_of_empty|done|apply last_snoc].
    rewrite bool_decide_eq_false_2; [done|].
    intros Heq. apply app_inv_tail in Heq. by destruct Hbase.
Qed.

End BundlePass.

Lemma codesign_bundles_first_file_decides_witness :
  Forall wf_file Examples.two_trees
  ∧ ∃ trace,
      runs (codesign_bundles unit Examples.exec_ok Examples.config
              Examples.two_trees) Examples.start true trace
      ∧ sign_count Examples.config (Examples.tree_a ++ ["X.app"]) trace
        = 1%nat
      ∧ ∀ base, base ≠ Examples.tree_a →
                sign_count Examples.config (base ++ ["X.app"]) trace
                = 0%nat.
Proof.
  split; [repeat constructor|].
  apply (codesign_bundles_first_file_decides Examples.exec_ok
           Examples.config []
           [Examples.file_in Examples.tree_b
              ["X.app"; "Contents"; "MacOS"; "X"];
            Examples.file_in Examples.tree_b
              ["X.app"; "Contents"; "Resources"; "lib.dylib"]]
           (Examples.file_in Examples.tree_a
              ["X.app"; "Contents"; "MacOS"; "X"])
           "X.app" ["Contents"; "MacOS"; "X"] Examples.start).
  - repeat constructor.
  - reflexivity.
  - reflexivity.
  - intros other Hin. by apply elem_of_nil in Hin.
Defined.

Lemma bundle_names_cons (file : AbsoluteAndRelativeFileName)
    (files : list AbsoluteAndRelativeFileName) :
  bundle_names (file :: files)
  = if is_file_from_bundle file
    then {[ take 1 (relative_filepath file) ]} ∪ bundle_names files
    else bundle_names files.
Proof.
  unfold bundle_names. cbn [List.filter].
  by destruct (is_file_from_bundle file).
Qed.

Lemma signed_bundles_known_difference (names signed_bundles : gset Path)
    (name : Path) :
  name ∈ signed_bundles →
  ({[ name ]} ∪ names) ∖ signed_bundles = names ∖ signed_bundles.
Proof.
  intros Hin. apply set_eq. intros x.
  rewrite !elem_of_difference, elem_of_union, elem_of_singleton.
  split; [|by intros [? ?]; auto].
  intros [[->|?] ?]; done.
Qed.

Lemma signed_bundles_new_difference (names signed_bundles : gset Path)
    (name : Path) :
  name ∉ signed_bundles →
  size (({[ name ]} ∪ names) ∖ signed_bundles)
  = S (size (names ∖ (signed_bundles ∪ {[ name ]}))).
Proof.
  intros Hnew.
  assert (({[ name ]} ∪ names) ∖ signed_bundles
          = {[ name ]} ∪ names ∖ (signed_bundles ∪ {[ name ]})) as ->.
  { apply set_eq. intros x.
    rewrite !elem_of_difference, !elem_of_union, !elem_of_difference,
      !elem_of_union, !elem_of_singleton.
    destruct (decide (x = name)) as [->|Hne]; split.
    - by left.
    - by intros _; split; [left|].
    - intros [[?|?] ?]; [done|]. right. split; [done|]. by intros [?|?].
    - intros [?|[? Hnot]]; [done|]. split; [by right|].
      intros ?. apply Hnot. by left. }
  rewrite size_union, size_singleton; [done|].
  intros x. rewrite elem_of_singleton, elem_of_difference, elem_of_union,
    elem_of_singleton.
  intros -> [_ Hnot]. apply Hnot. by right.
Qed.

(** The bundle pass signs as many bundles as there are bundle names not
    signed yet. *)
Lemma bundles_signed_length (files : list AbsoluteAndRelativeFileName) :
  ∀ signed_bundles : gset Path,
    length (bundles_signed files signed_bundles)
    = size (bundle_names files ∖ signed_bundles).
Proof.
  induction files as [|file files IH]; intros signed.
  - unfold bundle_names. simpl.
    by rewrite difference_disjoint_L, size_empty by apply disjoint_empty_l.
  - rewrite bundle_names_cons. cbn [bundles_signed].
    destruct (is_file_from_bundle file); [|apply IH].
    change (relative_filepath (bundle_of file))
      with (take 1 (relative_filepath file)).
    case_bool_decide as Hs.
    + rewrite signed_bundles_known_difference by done. apply IH.
    + rewrite signed_bundles_new_difference by done.
      cbn [length]. by rewrite IH.
Qed.

Lemma sign_one_commands_length (config : Config) (artifacts : list Path) :
  length (flat_map (sign_one_commands config) artifacts)
  = (2 * length artifacts)%nat.
Proof.
  induction artifacts as [|a artifacts IH]; [done|].
  cbn [flat_map sign_one_commands app length]. rewrite IH. lia.
Qed.

Lemma sign_command_in_pairs (config : Config) (artifacts : list Path)
    (p : Path) :
  p ∈ artifacts →
  ∃ before after,
    flat_map (sign_one_commands config) artifacts
    = before ++ sign_command config p :: after.
Proof.
  intros (l1 & l2 & ->)%list_elem_of_split.
  exists (flat_map (sign_one_commands config) l1 ++ [remove_command p]),
         (flat_map (sign_one_commands config) l2).
  rewrite flat_map_app. cbn [flat_map sign_one_commands app].
  by rewrite <- app_assoc.
Qed.

Section BothPasses.

Context {World : Type}.
Variable exec : Command → World → World * Z.
Variable config : Config.

(** X5: the per-file pass invokes two commands for each eligible file of
    the list, and the bundle pass two commands for each distinct bundle
    name (the first part, ending in .app, of a relative path of the
    list), however many files of the list lie in that bundle. *)
Theorem sign_all_files_command_count
    (files : list AbsoluteAndRelativeFileName) (st : State World) :
  Forall wf_file files →
  ∃ trace1 trace2,
    runs (codesign_all_files World exec config files) st true trace1
    ∧ (∀ st1, runs (codesign_bundles World exec config files)
                   st1 true trace2)
    ∧ runs (sign_all_files World exec config files) st () (trace1 ++ trace2)
    ∧ length (commands trace1)
      = (2 * length (List.filter check_file_is_to_be_signed files))%nat
    ∧ length (commands trace2) = (2 * size (bundle_names files))%nat.
Proof.
  intros Hwf.
  exists (codesign_all_files_events config files),
         (codesign_bundles_events config files).
  split; [apply runs_codesign_all_files|].
  split; [intros st1; by apply runs_codesign_bundles|].
  split; [by apply runs_sign_all_files|].
  rewrite commands_codesign_all_files_events,
    commands_codesign_bundles_events, !sign_one_commands_length,
    !length_map, bundles_signed_length.
  by rewrite difference_empty_L.
Qed.

(** X6: [sign_all_files] signs an eligible file of a bundle before it
    signs the bundle, when every file of the list whose relative path
    starts with the bundle's name has the bundle's base directory. *)
Theorem sign_all_files_file_before_bundle
    (files : list AbsoluteAndRelativeFileName)
    (file : AbsoluteAndRelativeFileName) (first : string) (rest : Path)
    (st : State World) :
  Forall wf_file files →
  file ∈ files →
  check_file_is_to_be_signed file = true →
  relative_filepath file = first :: rest →
  Str.endswith first ".app" = true →
  (∀ other rest', other ∈ files →
                  relative_filepath other = first :: rest' →
                  base_dir other = base_dir file) →
  ∃ trace before between after,
    runs (sign_all_files World exec config files) st () trace
    ∧ commands trace
      = before ++ sign_command config (absolute_filepath file)
          :: between ++ sign_command config (base_dir file ++ [first])
          :: after.
Proof.
  intros Hwf Hin Hcheck Hrel Happ Hbase.
  exists (codesign_all_files_events config files
            ++ codesign_bundles_events config files).
  destruct (sign_command_in_pairs config
              (map absolute_filepath
                 (List.filter check_file_is_to_be_signed files))
              (absolute_filepath file)) as (b1 & a1 & H1).
  { apply list_elem_of_fmap. exists file. split; [done|].
    apply list_elem_of_In, List.filter_In. split; [|done].
    by apply list_elem_of_In. }
  destruct (sign_command_in_pairs config
              (map absolute_filepath (bundles_signed files ∅))
              (base_dir file ++ [first])) as (b2 & a2 & H2).
  { pose proof (bundles_signed_once files ∅ file first rest Hin Hrel Happ
                  (not_elem_of_empty _) Hbase) as Hone.
    destruct (List.filter _ (bundles_signed files ∅))
      as [|bundle others] eqn:Hfilter; [done|].
    assert (In bundle (List.filter
              (fun bundle => bool_decide (absolute_filepath bundle
                                            = base_dir file ++ [first]))
              (bundles_signed files ∅))) as Hb
      by (rewrite Hfilter; by left).
    apply List.filter_In in Hb as [Hb Habs].
    apply bool_decide_eq_true in Habs.
    apply list_elem_of_fmap. exists bundle. split; [done|].
    by apply list_elem_of_In. }
  exists b1, (a1 ++ b2), a2.
  split; [by apply runs_sign_all_files|].
  rewrite commands_app, commands_codesign_all_files_events,
    commands_codesign_bundles_events, H1, H2.
  by rewrite <- !app_assoc.
Qed.

End BothPasses.

Lemma sign_all_files_command_count_witness :
  Forall wf_file Examples.scenario
  ∧ ∃ trace1 trace2,
      runs (codesign_all_files unit Examples.exec_ok Examples.config
              Examples.scenario) Examples.start true trace1
      ∧ (∀ st1, runs (codesign_bundles unit Examples.exec_ok
                        Examples.config Examples.scenario) st1 true trace2)
      ∧ runs (sign_all_files unit Examples.exec_ok Examples.config
                Examples.scenario) Examples.start () (trace1 ++ trace2)
      ∧ length (commands trace1)
        = (2 * length (List.filter check_file_is_to_be_signed
                         Examples.scenario))%nat
      ∧ length (commands trace2)
        = (2 * size (bundle_names Examples.scenario))%nat.
Proof.
  split; [repeat constructor|].
  apply (sign_all_files_command_count Examples.exec_ok Examples.config
           Examples.scenario Examples.start).
  repeat constructor.
Defined.

Lemma sign_all_files_file_before_bundle_witness :
  Forall wf_file Examples.scenario
  ∧ ∃ trace before between after,
      runs (sign_all_files unit Examples.exec_ok Examples.config
              Examples.scenario) Examples.start () trace
      ∧ commands trace
        = before
            ++ sign_command Examples.config
                 ["/"; "out"; "Foo.app"; "Contents"; "MacOS"; "Foo"]
            :: between
            ++ sign_command Examples.config ["/"; "out"; "Foo.app"]
            :: after.
Proof.
  split; [repeat constructor|].
  apply (sign_all_files_file_before_bundle Examples.exec_ok Examples.config
           Examples.scenario
           (Examples.file_in Examples.out
              ["Foo.app"; "Contents"; "MacOS"; "Foo"])
           "Foo.app" ["Contents"; "MacOS"; "Foo"] Examples.start).
  - repeat constructor.
  - left.
  - reflexivity.
  - reflexivity.
  - reflexivity.
  - intros other rest' Hin _.
    repeat (apply elem_of_cons in Hin as [->|Hin]; [reflexivity|]).
    by apply elem_of_nil in Hin.
Defined.

(** ** The world after the signer *)

Section Worlds.

Context {World : Type}.
Variable exec : Command → World → World * Z.
Variable config : Config.

#[local] Existing Instance M_ret.
#[local] Existing Instance M_bind.

Lemma run_commands_app (commands1 commands2 : list Command) (w : World) :
  run_commands exec (commands1 ++ commands2) w
  = run_commands exec commands2 (run_commands exec commands1 w).
Proof. apply fold_left_app. Qed.

Lemma tracks_ret {A : Type} (v : A) : tracks exec (mret v : M World A).
Proof.
  intros st r st' [= <- <-]. exists []. by rewrite app_nil_r.
Qed.

Lemma tracks_lift {A : Type} (r : Result A) : tracks exec (lift World r).
Proof.
  intros st r' st' [= <- <-]. exists []. by rewrite app_nil_r.
Qed.

Lemma tracks_bind {A B : Type} (m : M World A) (f : A → M World B) :
  tracks exec m → (∀ a, tracks exec (f a)) → tracks exec (m ≫= f).
Proof.
  intros Hm Hf st r st' Hrun. unfold mbind, M_bind in Hrun.
  destruct (m st) as [[a|e] st1] eqn:Hmst.
  - destruct (Hm _ _ _ Hmst) as (tr1 & Hev1 & Hw1).
    destruct (Hf a _ _ _ Hrun) as (tr2 & Hev2 & Hw2).
    exists (tr1 ++ tr2). split.
    + by rewrite Hev2, Hev1, app_assoc.
    + by rewrite commands_app, run_commands_app, <- Hw1.
  - injection Hrun as <- <-. by apply (Hm _ _ _ Hmst).
Qed.

Lemma tracks_info (msg : string) (args : list LogArg) :
  tracks exec (info World msg args).
Proof. intros st r st' [= <- <-]. by exists [Info msg args]. Qed.

Lemma tracks_run_command_or_mock (command : Command) (platform : Platform) :
  tracks exec (run_command_or_mock World exec command platform).
Proof.
  intros st r st' [= <- <-]. by exists [Invocation command platform].
Qed.

Lemma tracks_for_each {A S : Type} (body : A → S → M World S)
    (xs : list A) :
  (∀ x s, tracks exec (body x s)) →
  ∀ s, tracks exec (for_each World xs body s).
Proof.
  intros Hbody. induction xs as [|x xs IH]; intros s.
  - apply tracks_ret.
  - apply tracks_bind; [apply Hbody|exact IH].
Qed.

Lemma tracks_codesign_remove_signature (file : AbsoluteAndRelativeFileName) :
  tracks exec (codesign_remove_signature World exec file).
Proof.
  apply tracks_bind; [apply tracks_info|].
  intros _. apply tracks_run_command_or_mock.
Qed.

Lemma tracks_codesign_file (file : AbsoluteAndRelativeFileName) :
  tracks exec (codesign_file World exec config file).
Proof.
  apply tracks_bind; [apply tracks_info|].
  intros _. apply tracks_run_command_or_mock.
Qed.

Lemma tracks_codesign_all_files
    (files : list AbsoluteAndRelativeFileName) :
  tracks exec (codesign_all_files World exec config files).
Proof.
  unfold codesign_all_files. apply tracks_bind.
  - apply tracks_for_each. intros [i file] [hi sf].
    unfold codesign_all_files_body.
    destruct (check_file_is_to_be_signed file); cbn [negb].
    + apply tracks_bind; [apply tracks_info|]. intros _.
      apply tracks_bind; [apply tracks_codesign_remove_signature|].
      intros _.
      apply tracks_bind; [apply tracks_codesign_file|]. intros _.
      apply tracks_ret.
    + apply tracks_bind; [apply tracks_info|]. intros _. apply tracks_ret.
  - intros [hi sf]. apply tracks_bind; [|intros _; apply tracks_ret].
    destruct hi; [|apply tracks_ret].
    apply tracks_bind; [apply tracks_info|]. intros _.
    apply tracks_for_each. intros [i file] u. apply tracks_info.
Qed.

Lemma tracks_codesign_bundles (files : list AbsoluteAndRelativeFileName) :
  tracks exec (codesign_bundles World exec config files).
Proof.
  unfold codesign_bundles.
  apply tracks_bind; [|intros _; apply tracks_ret].
  apply tracks_for_each. intros file signed.
  unfold codesign_bundles_body.
  destruct (is_file_from_bundle file); cbn [negb]; [|apply tracks_ret].
  apply tracks_bind; [apply tracks_lift|]. intros bundle.
  case_bool_decide; [apply tracks_ret|].
  apply tracks_bind; [apply tracks_info|]. intros _.
  apply tracks_bind; [apply tracks_codesign_remove_signature|]. intros _.
  apply tracks_bind; [apply tracks_codesign_file|]. intros _.
  apply tracks_ret.
Qed.

(** X10: on files with genuine paths [sign_all_files] leaves the world
    that results from removing the signature of and signing each
    eligible file, in the order of the list, and then each bundle signed
    by the bundle pass, each command run on the world that the one
    before has left; the commands of its trace are these, and logging
    does not touch the world. *)
Theorem sign_all_files_runs_commands_in_order
    (files : list AbsoluteAndRelativeFileName) (st : State World) :
  Forall wf_file files →
  ∃ st' trace,
    sign_all_files World exec config files st = (Ok (), st')
    ∧ events st' = events st ++ trace
    ∧ commands trace
      = flat_map (sign_one_commands config)
          (map absolute_filepath
             (List.filter check_file_is_to_be_signed files)
           ++ map absolute_filepath (bundles_signed files ∅))
    ∧ world st'
      = run_commands exec
          (flat_map (sign_one_commands config)
             (map absolute_filepath
                (List.filter check_file_is_to_be_signed files)
              ++ map absolute_filepath (bundles_signed files ∅)))
          (world st).
Proof.
  intros Hwf.
  assert (tracks exec (sign_all_files World exec config files)) as Htracks.
  { unfold sign_all_files.
    apply tracks_bind; [apply tracks_codesign_all_files|].
    intros [|]; cbn [negb]; [|apply tracks_ret].
    apply tracks_bind; [apply tracks_codesign_bundles|].
    intros [|]; apply tracks_ret. }
  destruct (runs_sign_all_files exec config files st Hwf)
    as (st' & Hrun & Hev).
  destruct (Htracks _ _ _ Hrun) as (trace & Hev' & Hw).
  rewrite Hev in Hev'. apply app_inv_head in Hev' as <-.
  exists st', (codesign_all_files_events config files
                 ++ codesign_bundles_events config files).
  assert (commands (codesign_all_files_events config files
                      ++ codesign_bundles_events config files)
          = flat_map (sign_one_commands config)
              (map absolute_filepath
                 (List.filter check_file_is_to_be_signed files)
               ++ map absolute_filepath (bundles_signed files ∅))) as Hc.
  { by rewrite commands_app, commands_codesign_all_files_events,
      commands_codesign_bundles_events, flat_map_app. }
  split; [done|]. split; [done|]. split; [done|]. by rewrite <- Hc.
Qed.

End Worlds.

Lemma sign_all_files_runs_commands_in_order_witness :
  Forall wf_file Examples.scenario
  ∧ ∃ st' trace,
      sign_all_files nat Examples.exec_count Examples.config
        Examples.scenario (Build_State 0%nat []) = (Ok (), st')
      ∧ events st' = trace
      ∧ length (commands trace) = 8%nat
      ∧ world st' = 8%nat.
Proof.
  split; [repeat constructor|].
  destruct (sign_all_files_runs_commands_in_order Examples.exec_count
              Examples.config Examples.scenario (Build_State 0%nat []))
    as (st' & trace & Hrun & Hev & Hcommands & Hworld);
    [repeat constructor|].
  exists st', trace. split; [exact Hrun|]. split; [exact Hev|].
  split; [by rewrite Hcommands|exact Hworld].
Defined.
